(** * xalpha-openserv: the two cred.buzz capabilities

    A shallow embedding of [src/index.ts] (the [getAuthorDetails] capability)
    and of its extended version (which adds [getTopTweets]), followed by the
    properties of the capability invocation layer: input validation, response
    normalisation and the error-to-text mapping.

    Conventions of the embedding.
    - JavaScript strings are [string]s of bytes (UTF-8); [JSON.stringify]
      copies the bytes above 127 and the URL encoders percent-encode them.
    - A JavaScript [number] is a finite decimal [mant * 10^(-scale)].  Every
      JSON number literal and every finite double is such a decimal; IEEE-754
      rounding, negative zero and the exponent notation that [Number::toString]
      uses above 10^21 and below 10^-6 are not modelled.
    - [toLocaleString()] is the one of the default [en-US] locale.
    - The upstream payloads have the shapes that the source declares
      ([AuthorDetails], [Tweet], ...); a field is an [option] where the
      interface says [| null] or where the code guards against its absence. *)

From Stdlib Require Import ZArith NArith List Bool Lia.
From Stdlib Require Import Strings.String Strings.Ascii.
From Stdlib Require Import Numbers.DecimalString Numbers.DecimalN.
Import ListNotations.

Local Open Scope string_scope.
Local Open Scope Z_scope.

(* ================================================================== *)
(** * Numbers and their textual forms *)
(* ================================================================== *)

(** [mkNumber m k] is the number [m / 10^k]. *)
Record number : Type := mkNumber { mant : Z; scale : nat }.

Module Num.

Definition of_Z (z : Z) : number := mkNumber z 0.
Definition of_nat (n : nat) : number := mkNumber (Z.of_nat n) 0.

Definition pow10 (k : nat) : Z := 10 ^ Z.of_nat k.

(** [x === 0] (also the falsiness of a number). *)
Definition is_zero (x : number) : bool := mant x =? 0.

(** [x <= y], by cross multiplication. *)
Definition leb (x y : number) : bool :=
  mant x * pow10 (scale y) <=? mant y * pow10 (scale x).

Definition eqb (x y : number) : bool :=
  mant x * pow10 (scale y) =? mant y * pow10 (scale x).

Definition is_integer (x : number) : bool :=
  mant x mod pow10 (scale x) =? 0.

(** Decimal digits of a natural number, most significant first, without
    leading zeros (["0"] for zero). *)
Definition digits (n : N) : string := NilZero.string_of_uint (N.to_uint n).

Definition digit_char (d : N) : ascii := ascii_of_N (48 + d).

(** The [k] lowest decimal digits of [r], padded with zeros on the left. *)
Fixpoint frac_digits (k : nat) (r : N) : string :=
  match k with
  | O => ""
  | S k' =>
      String (digit_char ((r / 10 ^ N.of_nat k') mod 10)) (frac_digits k' r)
  end.

Definition is_zero_char (c : ascii) : bool := Ascii.eqb c "0".

(** Drop the zeros at the end of a digit string. *)
Fixpoint strip_trailing_zeros (s : string) : string :=
  match s with
  | "" => ""
  | String c s' =>
      match strip_trailing_zeros s' with
      | "" => if is_zero_char c then "" else String c ""
      | t => String c t
      end
  end.

Definition sign_of (m : Z) : string := if m <? 0 then "-" else "".

Definition with_fraction (int_part frac : string) : string :=
  match frac with
  | "" => int_part
  | _ => int_part ++ "." ++ frac
  end.

(** [Number::toString]: what a template literal, [toString()] and
    [JSON.stringify] print for a number. *)
Definition toString (x : number) : string :=
  let a := Z.abs_N (mant x) in
  let p := (10 ^ N.of_nat (scale x))%N in
  sign_of (mant x)
    ++ with_fraction (digits (a / p))
                     (strip_trailing_zeros (frac_digits (scale x) (a mod p))).

(** ** Grouping by thousands *)

Fixpoint chunk3 (l : list ascii) : list string :=
  match l with
  | [] => []
  | a :: b :: c :: rest => String a (String b (String c "")) :: chunk3 rest
  | short => [string_of_list_ascii short]
  end.

(** The groups of a digit string: a first group of one to three digits,
    then groups of exactly three. *)
Definition groups (s : string) : list string :=
  let l := list_ascii_of_string s in
  let r := (List.length l mod 3)%nat in
  match r with
  | O => chunk3 l
  | _ => string_of_list_ascii (firstn r l) :: chunk3 (skipn r l)
  end.

Definition group_thousands (s : string) : string :=
  String.concat "," (groups s).

(** [Number.prototype.toLocaleString()] with no argument, [en-US]: at most
    three fraction digits, rounded half away from zero, and the integer
    part grouped by thousands. *)
Definition toLocaleString (x : number) : string :=
  let a := Z.abs_N (mant x) in
  let p := (10 ^ N.of_nat (scale x))%N in
  let t := ((2 * 1000 * a + p) / (2 * p))%N in
  sign_of (mant x)
    ++ with_fraction (group_thousands (digits (t / 1000)))
                     (strip_trailing_zeros (frac_digits 3 (t mod 1000))).

End Num.

(* ================================================================== *)
(** * JavaScript values *)
(* ================================================================== *)

(** The values that cross the boundaries of the program: raw capability
    arguments, and the object literals handed to [JSON.stringify].  An
    object is the list of its own properties in insertion order. *)
Unset Elimination Schemes.
Inductive value : Type :=
| VUndefined
| VNull
| VBool (b : bool)
| VNum (n : number)
| VStr (s : string)
| VArr (elems : list value)
| VObj (props : list (string * value)).
Set Elimination Schemes.

(** [ToBoolean]. *)
Definition truthy (v : value) : bool :=
  match v with
  | VUndefined | VNull => false
  | VBool b => b
  | VNum n => negb (Num.is_zero n)
  | VStr s => negb (s =? "")%string
  | VArr _ | VObj _ => true
  end.

(** [a || b]. *)
Definition or_else (a b : value) : value := if truthy a then a else b.

(** A nullable field read from a decoded payload. *)
Definition of_string (o : option string) : value :=
  match o with Some s => VStr s | None => VNull end.

Definition of_number (o : option number) : value :=
  match o with Some n => VNum n | None => VNull end.

Definition of_strings (l : list string) : value := VArr (map VStr l).

(** [x?.toLocaleString()] for a nullable number [x]. *)
Definition opt_toLocaleString (o : option number) : value :=
  match o with
  | Some n => VStr (Num.toLocaleString n)
  | None => VUndefined
  end.

(** Own property lookup, [obj.key]. *)
Fixpoint lookup (key : string) (props : list (string * value)) : value :=
  match props with
  | [] => VUndefined
  | (k, v) :: rest => if (k =? key)%string then v else lookup key rest
  end.

Definition get (obj : value) (key : string) : value :=
  match obj with
  | VObj props => lookup key props
  | _ => VUndefined
  end.

(* ================================================================== *)
(** * JSON.stringify(value, null, 2) *)
(* ================================================================== *)

Module JSON.

Definition DQ : string := String (ascii_of_nat 34) "".
Definition LF : string := String (ascii_of_nat 10) "".
Definition gap : string := "  ".

Definition hex_digit (n : N) : ascii :=
  if (n <? 10)%N then ascii_of_N (48 + n) else ascii_of_N (87 + n).

(** One code unit of [QuoteJSONString]. *)
Definition escape_char (c : ascii) : string :=
  let n := N_of_ascii c in
  if (n =? 8)%N then "\b"
  else if (n =? 9)%N then "\t"
  else if (n =? 10)%N then "\n"
  else if (n =? 12)%N then "\f"
  else if (n =? 13)%N then "\r"
  else if (n =? 34)%N then String (ascii_of_nat 92) DQ
  else if (n =? 92)%N then "\\"
  else if (n <? 32)%N then
    "\u00" ++ String (hex_digit (n / 16)) (String (hex_digit (n mod 16)) "")
  else String c "".

Fixpoint escape (s : string) : string :=
  match s with
  | "" => ""
  | String c s' => escape_char c ++ escape s'
  end.

Definition QuoteJSONString (s : string) : string := DQ ++ escape s ++ DQ.

(** [SerializeJSONProperty], [SerializeJSONArray] and
    [SerializeJSONObject] of ECMA-262 with a non-empty [gap]; [None] is
    the [undefined] that makes a property disappear. *)
Fixpoint SerializeJSONProperty (indent : string) (v : value) : option string :=
  match v with
  | VUndefined => None
  | VNull => Some "null"
  | VBool true => Some "true"
  | VBool false => Some "false"
  | VNum n => Some (Num.toString n)
  | VStr s => Some (QuoteJSONString s)
  | VArr elems =>
      let stepback := indent in
      let indent := stepback ++ gap in
      let partial :=
        map (fun e => match SerializeJSONProperty indent e with
                      | Some str => str
                      | None => "null"
                      end) elems in
      Some match partial with
           | [] => "[]"
           | _ => "[" ++ LF ++ indent
                      ++ String.concat ("," ++ LF ++ indent) partial
                      ++ LF ++ stepback ++ "]"
           end
  | VObj props =>
      let stepback := indent in
      let indent := stepback ++ gap in
      let partial :=
        flat_map (fun kv => match SerializeJSONProperty indent (snd kv) with
                            | Some str => [QuoteJSONString (fst kv) ++ ": " ++ str]
                            | None => []
                            end) props in
      Some match partial with
           | [] => "{}"
           | _ => "{" ++ LF ++ indent
                      ++ String.concat ("," ++ LF ++ indent) partial
                      ++ LF ++ stepback ++ "}"
           end
  end.

Definition stringify (v : value) : value :=
  match SerializeJSONProperty "" v with
  | Some str => VStr str
  | None => VUndefined
  end.

End JSON.

(** [ToString], as applied by a template literal. *)
Fixpoint ToString (v : value) : string :=
  match v with
  | VUndefined => "undefined"
  | VNull => "null"
  | VBool true => "true"
  | VBool false => "false"
  | VNum n => Num.toString n
  | VStr s => s
  | VArr elems =>
      String.concat ","
        (map (fun e => match e with
                       | VUndefined | VNull => ""
                       | _ => ToString e
                       end) elems)
  | VObj _ => "[object Object]"
  end.

(* ================================================================== *)
(** * URL encoding *)
(* ================================================================== *)

Module URL.

Definition is_alnum (n : N) : bool :=
  ((48 <=? n) && (n <=? 57) || (65 <=? n) && (n <=? 90)
   || (97 <=? n) && (n <=? 122))%N.

Definition upper_hex (n : N) : ascii :=
  if (n <? 10)%N then ascii_of_N (48 + n) else ascii_of_N (55 + n).

Definition percent (n : N) : string :=
  String "%" (String (upper_hex (n / 16)) (String (upper_hex (n mod 16)) "")).

Definition mem_chars (c : ascii) (set : string) : bool :=
  existsb (Ascii.eqb c) (list_ascii_of_string set).

(** [encodeURIComponent]: letters, digits and [- _ . ! ~ * ' ( )] are
    kept, every other byte is percent-encoded. *)
Fixpoint encodeURIComponent (s : string) : string :=
  match s with
  | "" => ""
  | String c s' =>
      (if is_alnum (N_of_ascii c) || mem_chars c "-_.!~*'()"
       then String c "" else percent (N_of_ascii c))
        ++ encodeURIComponent s'
  end.

(** The [application/x-www-form-urlencoded] byte serializer used by
    [URLSearchParams.prototype.toString]. *)
Fixpoint form_urlencode (s : string) : string :=
  match s with
  | "" => ""
  | String c s' =>
      (if is_alnum (N_of_ascii c) || mem_chars c "*-._" then String c ""
       else if Ascii.eqb c " " then "+"
       else percent (N_of_ascii c))
        ++ form_urlencode s'
  end.

(** [new URLSearchParams({...}).toString()]. *)
Definition URLSearchParams_toString (params : list (string * string)) : string :=
  String.concat "&"
    (map (fun kv => form_urlencode (fst kv) ++ "=" ++ form_urlencode (snd kv))
         params).

End URL.

(* ================================================================== *)
(** * zod schemas *)
(* ================================================================== *)

Module Zod.

Inductive ZodIssueCode : Type :=
| invalid_type
| invalid_enum_value
| too_small
| too_big.

Record ZodIssue : Type := mkIssue { code : ZodIssueCode; path : list string }.

Inductive SafeParseReturn (A : Type) : Type :=
| success (data : A)
| failure (issues : list ZodIssue).
Arguments success {A} data.
Arguments failure {A} issues.

Definition ZodType (A : Type) : Type := value -> SafeParseReturn A.

Definition issues_of {A} (r : SafeParseReturn A) : list ZodIssue :=
  match r with
  | success _ => []
  | failure issues => issues
  end.

Definition is_success {A} (r : SafeParseReturn A) : bool :=
  match r with
  | success _ => true
  | failure _ => false
  end.

(** [z.string()] *)
Definition string : ZodType String.string := fun input =>
  match input with
  | VStr s => success s
  | _ => failure [mkIssue invalid_type []]
  end.

(** [z.enum([...])] *)
Definition enum (values : list String.string) : ZodType String.string :=
  fun input =>
    match input with
    | VStr s =>
        if existsb (String.eqb s) values then success s
        else failure [mkIssue invalid_enum_value []]
    | _ => failure [mkIssue invalid_type []]
    end.

Inductive ZodNumberCheck : Type :=
| min (bound : number)
| max (bound : number).

Definition run_check (n : number) (c : ZodNumberCheck) : list ZodIssue :=
  match c with
  | min bound => if Num.leb bound n then [] else [mkIssue too_small []]
  | max bound => if Num.leb n bound then [] else [mkIssue too_big []]
  end.

(** [z.number()] followed by its chain of checks. *)
Definition number (checks : list ZodNumberCheck) : ZodType number :=
  fun input =>
    match input with
    | VNum n =>
        match flat_map (run_check n) checks with
        | [] => success n
        | issues => failure issues
        end
    | _ => failure [mkIssue invalid_type []]
    end.

(** [schema.default(d)]: an [undefined] input is replaced by [d]. *)
Definition default {A} (schema : ZodType A) (d : value) : ZodType A :=
  fun input =>
    match input with
    | VUndefined => schema d
    | _ => schema input
    end.

(** The member [key] of a [z.object] shape, parsed at [input[key]]. *)
Definition member {A} (key : String.string) (schema : ZodType A)
  (input : value) : SafeParseReturn A :=
  match schema (get input key) with
  | success a => success a
  | failure issues =>
      failure (map (fun i => mkIssue (code i) (key :: path i)) issues)
  end.

Definition is_object (input : value) : bool :=
  match input with
  | VObj _ => true
  | _ => false
  end.

End Zod.

(* ================================================================== *)
(** * axios, exceptions and the effects of a capability *)
(* ================================================================== *)

(** [error.response] of an [AxiosError]. *)
Record ErrorResponse : Type :=
  mkErrorResponse { err_status : Z; err_statusText : string }.

(** What a [catch] clause can receive.  Every rejection of [axios.get] is
    an [AxiosError]: with a [response] when the server answered with a
    status outside 2xx, without one when no answer was obtained (DNS
    failure, timeout, refused or reset connection).  [JsError] is any
    other instance of [Error], [NonError] any other thrown value. *)
Inductive thrown : Type :=
| AxiosError (message : string) (response : option ErrorResponse)
| JsError (name message : string)
| NonError (v : value).

Inductive completion (A : Type) : Type :=
| Normal (a : A)
| Throw (e : thrown).
Arguments Normal {A} a.
Arguments Throw {A} e.

(** [axios.isAxiosError(error)] *)
Definition isAxiosError (error : thrown) : bool :=
  match error with
  | AxiosError _ _ => true
  | _ => false
  end.

(** [error.response] *)
Definition error_response (error : thrown) : option ErrorResponse :=
  match error with
  | AxiosError _ response => response
  | _ => None
  end.

(** [error instanceof Error]; an [AxiosError] is an [Error]. *)
Definition instanceof_Error (error : thrown) : bool :=
  match error with
  | AxiosError _ _ | JsError _ _ => true
  | NonError _ => false
  end.

(** [error.message] *)
Definition error_message (error : thrown) : string :=
  match error with
  | AxiosError message _ | JsError _ message => message
  | NonError v => ToString (get v "message")
  end.

(** [response?.status] and [response?.statusText] *)
Definition opt_status (response : option ErrorResponse) : value :=
  match response with
  | Some r => VNum (Num.of_Z (err_status r))
  | None => VUndefined
  end.

Definition opt_statusText (response : option ErrorResponse) : value :=
  match response with
  | Some r => VStr (err_statusText r)
  | None => VUndefined
  end.

(** [v === n] for a number literal [n]. *)
Definition strict_eq_num (v : value) (n : Z) : bool :=
  match v with
  | VNum x => Num.eqb x (Num.of_Z n)
  | _ => false
  end.

(** A fulfilled [axios.get]: a 2xx response and its decoded body, if any. *)
Record AxiosResponse (D : Type) : Type :=
  mkResponse { data : option D; status : Z; statusText : string }.
Arguments mkResponse {D} data status statusText.
Arguments data {D} a.
Arguments status {D} a.
Arguments statusText {D} a.

Inductive event : Type :=
| ConsoleLog (text : string)
| ConsoleError (text : string) (error : thrown)
| HttpGet (url : string).

(** The network answers each GET once, with a response or a rejection. *)
Definition network (D : Type) : Type := string -> completion (AxiosResponse D).

(** An [async] body: it reads the network, and yields a completion and
    the events it caused, in order. *)
Definition Async (D A : Type) : Type := network D -> completion A * list event.

Definition ret {D A} (a : A) : Async D A := fun _ => (Normal a, []).

Definition bind {D A B} (m : Async D A) (f : A -> Async D B) : Async D B :=
  fun net =>
    match m net with
    | (Normal a, t) => let (r, t') := f a net in (r, (t ++ t')%list)
    | (Throw e, t) => (Throw e, t)
    end.

(** [try { body } catch (error) { handler }] *)
Definition try_catch {D A} (body : Async D A) (handler : thrown -> Async D A)
  : Async D A :=
  fun net =>
    match body net with
    | (Normal a, t) => (Normal a, t)
    | (Throw e, t) => let (r, t') := handler e net in (r, (t ++ t')%list)
    end.

Definition console_log {D} (text : string) : Async D unit :=
  fun _ => (Normal tt, [ConsoleLog text]).

Definition console_error {D} (text : string) (error : thrown) : Async D unit :=
  fun _ => (Normal tt, [ConsoleError text error]).

(** [await axios.get(url)] *)
Definition axios_get {D} (url : string) : Async D (AxiosResponse D) :=
  fun net => (net url, [HttpGet url]).

Notation "x <- m ;; k" := (bind m (fun x => k))
  (at level 61, m at next level, right associativity).
Notation "m ;;; k" := (bind m (fun _ => k))
  (at level 61, right associativity).

Definition is_http_get (e : event) : bool :=
  match e with
  | HttpGet _ => true
  | _ => false
  end.

(** The GET requests among the events of a run. *)
Definition requests (t : list event) : list event := filter is_http_get t.

(* ================================================================== *)
(** * The upstream payloads *)
(* ================================================================== *)

Module AuthorDetails.
Record t : Type := mk {
  author_handle : string;
  name : option string;
  bio : option string;
  url_in_bio : option string;
  profile_image_url : option string;
  profile_banner_url : option string;
  followers_count : option number;
  followings_count : option number;
  account_created_at : option string;
  crypto_tweets_all : option number;
  crypto_tweets_views_all : option number;
  engagement_score : option number;
  followers_impact : option number;
  total_symbols_mentioned : option number;
  symbols_mentioned_in_last_24hr : option number;
  new_symbols_mentioned_in_last_24hr : option number;
  unique_author_handle_count : option number;
  total_mention_count : option number;
  tags : list string;
  mentions_24hr : option number;
  mindshare : option number;
  smart_followers_count : option number
}.
End AuthorDetails.

Module CredBuzzResponse.
(** [result] is tested for falsiness by the code, hence the [option]. *)
Record t : Type := mk {
  result : option AuthorDetails.t;
  message : string
}.
End CredBuzzResponse.

Module Tweet.
(** The counters are read with [?.] and the symbol list with [||], hence
    the [option]s. *)
Record t : Type := mk {
  tweet_id : string;
  author_handle : string;
  content : string;
  created_at : string;
  view_count : option number;
  like_count : option number;
  reply_count : option number;
  retweet_count : option number;
  quote_count : option number;
  bookmark_count : option number;
  symbols_mentioned : option (list string)
}.
End Tweet.

Module TopTweetsResponse.
Record t : Type := mk {
  result : option (list Tweet.t);
  message : string
}.
End TopTweetsResponse.

Definition NA : value := VStr "N/A".

(* ================================================================== *)
(** * Capability [getAuthorDetails] *)
(* ================================================================== *)

Module GetAuthorDetails.

Record Args : Type := mkArgs { author_handle : string }.

(** [z.object({ author_handle: z.string() })] *)
Definition schema : Zod.ZodType Args := fun input =>
  if Zod.is_object input then
    match Zod.member "author_handle" Zod.string input with
    | Zod.success h => Zod.success (mkArgs h)
    | Zod.failure issues => Zod.failure issues
    end
  else Zod.failure [Zod.mkIssue Zod.invalid_type []].

Definition url (args : Args) : string :=
  "https://api.cred.buzz/user/author-handle-details?author_handle="
    ++ URL.encodeURIComponent (author_handle args).

Definition formattedDetails (author : AuthorDetails.t) : value :=
  VObj [
    ("handle", VStr (AuthorDetails.author_handle author));
    ("name", or_else (of_string (AuthorDetails.name author)) NA);
    ("bio", or_else (of_string (AuthorDetails.bio author)) NA);
    ("profileUrl", or_else (of_string (AuthorDetails.url_in_bio author)) NA);
    ("followers",
      or_else (opt_toLocaleString (AuthorDetails.followers_count author)) NA);
    ("following",
      or_else (opt_toLocaleString (AuthorDetails.followings_count author)) NA);
    ("accountCreated",
      or_else (of_string (AuthorDetails.account_created_at author)) NA);
    ("cryptoTweets",
      or_else (opt_toLocaleString (AuthorDetails.crypto_tweets_all author)) NA);
    ("cryptoTweetViews",
      or_else (opt_toLocaleString (AuthorDetails.crypto_tweets_views_all author)) NA);
    ("engagementScore",
      or_else (of_number (AuthorDetails.engagement_score author)) NA);
    ("followersImpact",
      or_else (of_number (AuthorDetails.followers_impact author)) NA);
    ("symbolsMentioned",
      or_else (of_number (AuthorDetails.total_symbols_mentioned author)) NA);
    ("symbolsLast24h",
      or_else (of_number (AuthorDetails.symbols_mentioned_in_last_24hr author)) NA);
    ("newSymbolsLast24h",
      or_else (of_number (AuthorDetails.new_symbols_mentioned_in_last_24hr author)) NA);
    ("mentions24h", or_else (of_number (AuthorDetails.mentions_24hr author)) NA);
    ("mindshare", or_else (of_number (AuthorDetails.mindshare author)) NA);
    ("smartFollowers",
      or_else (opt_toLocaleString (AuthorDetails.smart_followers_count author)) NA);
    ("tags",
      if (0 <? List.length (AuthorDetails.tags author))%nat
      then of_strings (AuthorDetails.tags author)
      else VArr [VStr "None"])
  ].

Definition no_details : value :=
  VStr "No author details found for the provided handle.".

(** The body of [try]. *)
Definition fetch (args : Args) : Async CredBuzzResponse.t value :=
  console_log ("Fetching details for author: " ++ author_handle args) ;;;
  response <- axios_get (url args) ;;
  match data response with
  | None => ret no_details
  | Some body =>
      match CredBuzzResponse.result body with
      | None => ret no_details
      | Some author => ret (JSON.stringify (formattedDetails author))
      end
  end.

(** The body of [catch (error)]. *)
Definition translate (error : thrown) : Async CredBuzzResponse.t value :=
  console_error "Error fetching author details:" error ;;;
  if isAxiosError error then
    if strict_eq_num (opt_status (error_response error)) 404 then
      ret (VStr "Author not found. Please check the handle and try again.")
    else if strict_eq_num (opt_status (error_response error)) 429 then
      ret (VStr "Rate limit exceeded. Please try again later.")
    else
      ret (VStr ("API error: " ++ ToString (opt_status (error_response error))
                   ++ " - " ++ ToString (opt_statusText (error_response error))))
  else
    ret (VStr ("Error fetching author details: "
                 ++ (if instanceof_Error error then error_message error
                     else "Unknown error"))).

Definition run (args : Args) : Async CredBuzzResponse.t value :=
  try_catch (fetch args) translate.

End GetAuthorDetails.

(* ================================================================== *)
(** * Capability [getTopTweets] *)
(* ================================================================== *)

Module GetTopTweets.

Record Args : Type := mkArgs {
  author_handle : string;
  interval : string;
  sort_by : string;
  limit : number
}.

Definition intervals : list string := ["1day"; "7day"; "30day"].

Definition sort_keys : list string :=
  ["view_count_desc"; "like_count_desc"; "reply_count_desc";
   "retweet_count_desc"; "created_at_desc"].

Definition interval_schema : Zod.ZodType string :=
  Zod.default (Zod.enum intervals) (VStr "7day").

Definition sort_by_schema : Zod.ZodType string :=
  Zod.default (Zod.enum sort_keys) (VStr "view_count_desc").

(** [z.number().min(1).max(50).default(5)] *)
Definition limit_schema : Zod.ZodType number :=
  Zod.default (Zod.number [Zod.min (Num.of_Z 1); Zod.max (Num.of_Z 50)])
              (VNum (Num.of_Z 5)).

Definition schema : Zod.ZodType Args := fun input =>
  if Zod.is_object input then
    match Zod.member "author_handle" Zod.string input,
          Zod.member "interval" interval_schema input,
          Zod.member "sort_by" sort_by_schema input,
          Zod.member "limit" limit_schema input with
    | Zod.success h, Zod.success i, Zod.success s, Zod.success l =>
        Zod.success (mkArgs h i s l)
    | r1, r2, r3, r4 =>
        Zod.failure (Zod.issues_of r1 ++ Zod.issues_of r2
                       ++ Zod.issues_of r3 ++ Zod.issues_of r4)%list
    end
  else Zod.failure [Zod.mkIssue Zod.invalid_type []].

Definition params (args : Args) : list (string * string) :=
  [("author_handle", author_handle args);
   ("interval", interval args);
   ("sort_by", sort_by args);
   ("limit", Num.toString (limit args))].

Definition url (args : Args) : string :=
  "https://api.cred.buzz/user/get-top-tweets?"
    ++ URL.URLSearchParams_toString (params args).

(** The callback of [tweets.map]. *)
Definition formatTweet (tweet : Tweet.t) (index : nat) : value :=
  VObj [
    ("position", VNum (Num.of_nat (index + 1)));
    ("tweetId", VStr (Tweet.tweet_id tweet));
    ("content", VStr (Tweet.content tweet));
    ("createdAt", VStr (Tweet.created_at tweet));
    ("metrics", VObj [
      ("views", or_else (opt_toLocaleString (Tweet.view_count tweet)) NA);
      ("likes", or_else (opt_toLocaleString (Tweet.like_count tweet)) NA);
      ("replies", or_else (opt_toLocaleString (Tweet.reply_count tweet)) NA);
      ("retweets", or_else (opt_toLocaleString (Tweet.retweet_count tweet)) NA);
      ("quotes", or_else (opt_toLocaleString (Tweet.quote_count tweet)) NA);
      ("bookmarks", or_else (opt_toLocaleString (Tweet.bookmark_count tweet)) NA)
    ]);
    ("symbolsMentioned",
      or_else (match Tweet.symbols_mentioned tweet with
               | Some l => of_strings l
               | None => VUndefined
               end)
              (VArr []))
  ].

(** [array.map((x, index) => f x index)], from position [start]. *)
Fixpoint map_index {A B} (f : A -> nat -> B) (start : nat) (l : list A)
  : list B :=
  match l with
  | [] => []
  | x :: l' => f x start :: map_index f (S start) l'
  end.

Definition summary (args : Args) (tweets : list Tweet.t) : value :=
  VObj [
    ("author", VStr (author_handle args));
    ("totalTweets", VNum (Num.of_nat (List.length tweets)));
    ("interval", VStr (interval args));
    ("sortedBy", VStr (sort_by args));
    ("tweets", VArr (map_index formatTweet 0 tweets))
  ].

Definition no_response : value := VStr "No response received from the API.".

Definition no_tweets (args : Args) : value :=
  VStr ("No tweets found for author " ++ JSON.DQ ++ author_handle args
          ++ JSON.DQ ++ " in the specified time period.").

(** The body of [try]. *)
Definition fetch (args : Args) : Async TopTweetsResponse.t value :=
  console_log ("Fetching top tweets for author: " ++ author_handle args) ;;;
  response <- axios_get (url args) ;;
  match data response with
  | None => ret no_response
  | Some body =>
      match TopTweetsResponse.result body with
      | None => ret (no_tweets args)
      | Some tweets =>
          if (List.length tweets =? 0)%nat then ret (no_tweets args)
          else ret (JSON.stringify (summary args tweets))
      end
  end.

(** The body of [catch (error)]. *)
Definition translate (error : thrown) : Async TopTweetsResponse.t value :=
  console_error "Error fetching top tweets:" error ;;;
  if isAxiosError error then
    if strict_eq_num (opt_status (error_response error)) 404 then
      ret (VStr "Author not found or no tweets available. Please check the handle and try again.")
    else if strict_eq_num (opt_status (error_response error)) 429 then
      ret (VStr "Rate limit exceeded. Please try again later.")
    else
      ret (VStr ("API error: " ++ ToString (opt_status (error_response error))
                   ++ " - " ++ ToString (opt_statusText (error_response error))))
  else
    ret (VStr ("Error fetching top tweets: "
                 ++ (if instanceof_Error error then error_message error
                     else "Unknown error"))).

Definition run (args : Args) : Async TopTweetsResponse.t value :=
  try_catch (fetch args) translate.

End GetTopTweets.

(* ================================================================== *)
(** * Dispatch by the host *)
(* ================================================================== *)

Inductive outcome : Type :=
| ValidationError (issues : list Zod.ZodIssue)
| Returned (v : value)
| Raised (e : thrown).

(** Modelled from the spec: the dispatch of the agent host (the
    [@openserv-labs/sdk] [Agent], which is not part of this repository).
    The host validates the raw arguments against the capability's schema
    before invocation; a validation failure is reported to the caller and
    the capability does not run. *)
Definition invoke {Args D} (schema : Zod.ZodType Args)
  (run : Args -> Async D value) (raw : value) (net : network D)
  : outcome * list event :=
  match schema raw with
  | Zod.failure issues => (ValidationError issues, [])
  | Zod.success args =>
      match run args net with
      | (Normal v, t) => (Returned v, t)
      | (Throw e, t) => (Raised e, t)
      end
  end.

Definition getAuthorDetails := invoke GetAuthorDetails.schema GetAuthorDetails.run.
Definition getTopTweets := invoke GetTopTweets.schema GetTopTweets.run.

(* ================================================================== *)
(** * Vocabulary of the specification *)
(* ================================================================== *)

(** Grouped-thousands formatting: [out] is the digit string [ds] cut into
    a first group of one to three digits followed by groups of exactly
    three digits, with a comma between consecutive groups. *)
Definition grouped_thousands (ds out : string) : Prop :=
  exists first rest,
    (1 <= String.length first <= 3)%nat
    /\ Forall (fun g => String.length g = 3%nat) rest
    /\ ds = String.concat "" (first :: rest)
    /\ out = String.concat "," (first :: rest).

(** The whole number [q], written with [k] zero decimals. *)
Definition whole (q : N) (k : nat) : number :=
  mkNumber (Z.of_N q * Num.pow10 k) k.

(** The count fields of an author, which the code formats with
    [toLocaleString], and the other numeric fields that it renders. *)
Definition count_fields : list (string * (AuthorDetails.t -> option number)) :=
  [("followers", AuthorDetails.followers_count);
   ("following", AuthorDetails.followings_count);
   ("cryptoTweets", AuthorDetails.crypto_tweets_all);
   ("cryptoTweetViews", AuthorDetails.crypto_tweets_views_all);
   ("smartFollowers", AuthorDetails.smart_followers_count)].

Definition plain_number_fields
  : list (string * (AuthorDetails.t -> option number)) :=
  [("engagementScore", AuthorDetails.engagement_score);
   ("followersImpact", AuthorDetails.followers_impact);
   ("symbolsMentioned", AuthorDetails.total_symbols_mentioned);
   ("symbolsLast24h", AuthorDetails.symbols_mentioned_in_last_24hr);
   ("newSymbolsLast24h", AuthorDetails.new_symbols_mentioned_in_last_24hr);
   ("mentions24h", AuthorDetails.mentions_24hr);
   ("mindshare", AuthorDetails.mindshare)].

Definition text_fields : list (string * (AuthorDetails.t -> option string)) :=
  [("name", AuthorDetails.name);
   ("bio", AuthorDetails.bio);
   ("profileUrl", AuthorDetails.url_in_bio);
   ("accountCreated", AuthorDetails.account_created_at)].

(** The own properties of an object. *)
Definition properties (v : value) : list (string * value) :=
  match v with
  | VObj props => props
  | _ => []
  end.

(** The JSON grammar of RFC 8259, on byte strings. *)
Module Grammar.

Definition BS : ascii := ascii_of_nat 92.
Definition QUOTE : ascii := ascii_of_nat 34.

Definition all (p : ascii -> bool) (s : string) : Prop :=
  forallb p (list_ascii_of_string s) = true.

Definition is_ws (c : ascii) : bool :=
  let n := N_of_ascii c in
  ((n =? 32) || (n =? 9) || (n =? 10) || (n =? 13))%N.

Definition is_digit (c : ascii) : bool :=
  let n := N_of_ascii c in ((48 <=? n) && (n <=? 57))%N.

Definition is_digit1_9 (c : ascii) : bool :=
  let n := N_of_ascii c in ((49 <=? n) && (n <=? 57))%N.

Definition is_hex (c : ascii) : bool :=
  let n := N_of_ascii c in
  ((48 <=? n) && (n <=? 57) || (65 <=? n) && (n <=? 70)
   || (97 <=? n) && (n <=? 102))%N.

(** [unescaped = %x20-21 / %x23-5B / %x5D-10FFFF] *)
Definition is_unescaped (c : ascii) : bool :=
  let n := N_of_ascii c in
  ((32 <=? n) && negb (n =? 34) && negb (n =? 92))%N.

(** The characters allowed after a backslash, [u] apart. *)
Definition is_escape (c : ascii) : bool :=
  Ascii.eqb c QUOTE || Ascii.eqb c BS
  || existsb (Ascii.eqb c) (list_ascii_of_string "/bfnrt").

Definition ws (s : string) : Prop := all is_ws s.

Definition digits1 (s : string) : Prop := s <> "" /\ all is_digit s.

(** [int = zero / ( digit1-9 *DIGIT )] *)
Definition int (s : string) : Prop :=
  s = "0"
  \/ exists c rest, s = String c rest /\ is_digit1_9 c = true
                    /\ all is_digit rest.

(** [[ frac ]], with [frac = decimal-point 1*DIGIT] *)
Definition opt_frac (s : string) : Prop :=
  s = "" \/ exists ds, digits1 ds /\ s = "." ++ ds.

(** [[ exp ]], with [exp = e [ minus / plus ] 1*DIGIT] *)
Definition opt_exp (s : string) : Prop :=
  s = ""
  \/ exists e sign ds,
      (e = "e" \/ e = "E") /\ (sign = "" \/ sign = "+" \/ sign = "-")
      /\ digits1 ds /\ s = e ++ sign ++ ds.

(** [number = [ minus ] int [ frac ] [ exp ]] *)
Definition number (s : string) : Prop :=
  exists sign i f e,
    (sign = "" \/ sign = "-") /\ int i /\ opt_frac f /\ opt_exp e
    /\ s = sign ++ i ++ f ++ e.

(** [*char] *)
Inductive chars : string -> Prop :=
| chars_nil : chars ""
| chars_unescaped c s :
    is_unescaped c = true -> chars s -> chars (String c s)
| chars_escape c s :
    is_escape c = true -> chars s -> chars (String BS (String c s))
| chars_unicode h1 h2 h3 h4 s :
    is_hex h1 = true -> is_hex h2 = true ->
    is_hex h3 = true -> is_hex h4 = true ->
    chars s ->
    chars (String BS (String "u"
             (String h1 (String h2 (String h3 (String h4 s)))))).

(** [string = quotation-mark *char quotation-mark] *)
Definition str (s : string) : Prop :=
  exists body, chars body /\ s = String QUOTE (body ++ String QUOTE "").

(** [value], with the lists of an array ([elements]) and of an object
    ([members]); the separators carry their optional white space. *)
Inductive value : string -> Prop :=
| value_null : value "null"
| value_true : value "true"
| value_false : value "false"
| value_number s : number s -> value s
| value_string s : str s -> value s
| value_empty_array w : ws w -> value ("[" ++ w ++ "]")
| value_array body : elements body -> value ("[" ++ body ++ "]")
| value_empty_object w : ws w -> value ("{" ++ w ++ "}")
| value_object body : members body -> value ("{" ++ body ++ "}")
with elements : string -> Prop :=
| elements_one w1 v w2 :
    ws w1 -> value v -> ws w2 -> elements (w1 ++ v ++ w2)
| elements_more w1 v w2 rest :
    ws w1 -> value v -> ws w2 -> elements rest ->
    elements (w1 ++ v ++ w2 ++ "," ++ rest)
with members : string -> Prop :=
| members_one w1 k w2 w3 v w4 :
    ws w1 -> str k -> ws w2 -> ws w3 -> value v -> ws w4 ->
    members (w1 ++ k ++ w2 ++ ":" ++ w3 ++ v ++ w4)
| members_more w1 k w2 w3 v w4 rest :
    ws w1 -> str k -> ws w2 -> ws w3 -> value v -> ws w4 ->
    members rest ->
    members (w1 ++ k ++ w2 ++ ":" ++ w3 ++ v ++ w4 ++ "," ++ rest).

(** [JSON-text = ws value ws] *)
Definition text (s : string) : Prop :=
  exists w1 v w2, ws w1 /\ value v /\ ws w2 /\ s = w1 ++ v ++ w2.

End Grammar.

(** A member as [SerializeJSONObject] writes it: the quoted key, a colon,
    one space, the value. *)
Definition written_member (m : string) : Prop :=
  exists k v, Grammar.str k /\ Grammar.value v /\ m = k ++ ": " ++ v.

(* ================================================================== *)
(** * Sample inputs *)
(* ================================================================== *)

(** An author with a zero count, a zero score, an empty bio and tags. *)
Definition kaitoai : AuthorDetails.t :=
  AuthorDetails.mk "kaitoai" (Some "Kaito") (Some "") None None None
    (Some (mkNumber 1234567 0)) (Some (mkNumber 0 0)) None None None
    (Some (mkNumber 0 0)) (Some (mkNumber 125 1)) (Some (mkNumber 1234 0))
    None None None None ["ai"; "defi"] None None None.

(** An author about whom nothing is known. *)
Definition newcomer : AuthorDetails.t :=
  AuthorDetails.mk "newcomer" None None None None None None None None None
    None None None None None None None None [] None None None.

Definition quiet_tweet : Tweet.t :=
  Tweet.mk "1" "kaitoai" "gm" "2025-01-01T00:00:00Z"
    (Some (mkNumber 1000 0)) None None None None None (Some []).

Definition kaito_args : GetAuthorDetails.Args :=
  GetAuthorDetails.mkArgs "kaitoai".

Definition alice_args : GetTopTweets.Args :=
  GetTopTweets.mkArgs "alice" "30day" "view_count_desc" (Num.of_Z 5).

(** Upstream answers with the details of [kaitoai]. *)
Definition kaito_net : network CredBuzzResponse.t :=
  fun _ =>
    Normal (mkResponse
              (Some (CredBuzzResponse.mk (Some kaitoai) "success")) 200 "OK").

(** Upstream answers 200 with a body that has no [result]. *)
Definition no_result_net : network CredBuzzResponse.t :=
  fun _ =>
    Normal (mkResponse (Some (CredBuzzResponse.mk None "not found")) 200 "OK").

(** Upstream answers 200 with an empty list of tweets, or with no body. *)
Definition empty_tweets_net : network TopTweetsResponse.t :=
  fun _ =>
    Normal (mkResponse (Some (TopTweetsResponse.mk (Some []) "ok")) 200 "OK").

Definition no_body_net : network TopTweetsResponse.t :=
  fun _ => Normal (mkResponse None 200 "OK").

(** Upstream answers with an HTTP error status. *)
Definition server_error : thrown :=
  AxiosError "Request failed with status code 500"
    (Some (mkErrorResponse 500 "Internal Server Error")).

Definition not_found : thrown :=
  AxiosError "Request failed with status code 404"
    (Some (mkErrorResponse 404 "Not Found")).

Definition rate_limited : thrown :=
  AxiosError "Request failed with status code 429"
    (Some (mkErrorResponse 429 "Too Many Requests")).

(** The connection is refused: axios rejects without a [response]. *)
Definition connection_refused : thrown :=
  AxiosError "connect ECONNREFUSED 127.0.0.1:443" None.

Definition failing {D} (error : thrown) : network D := fun _ => Throw error.

(** Raw arguments as a caller may send them. *)
Definition raw_empty_handle : value := VObj [("author_handle", VStr "")].

Definition raw_no_handle : value := VObj [("limit", VNum (Num.of_Z 5))].

Definition two_and_a_half : number := mkNumber 25 1.

Definition raw_fractional_limit : value :=
  VObj [("author_handle", VStr "kaitoai"); ("limit", VNum two_and_a_half)].

(* ================================================================== *)
(** * Vocabulary of the further properties *)
(* ================================================================== *)

(** The number of occurrences of a character in a string. *)
Fixpoint count_char (c : ascii) (s : string) : nat :=
  match s with
  | "" => 0%nat
  | String c' s' => ((if Ascii.eqb c' c then 1 else 0) + count_char c s')%nat
  end.

(** The characters that [encodeURIComponent] can write: the ones it
    keeps, and the percent sign with its hexadecimal digits. *)
Definition is_uri_component_char (c : ascii) : bool :=
  URL.is_alnum (N_of_ascii c) || URL.mem_chars c "-_.!~*'()%".

(** The characters that the form serializer of [URLSearchParams] can
    write. *)
Definition is_form_char (c : ascii) : bool :=
  URL.is_alnum (N_of_ascii c) || URL.mem_chars c "*-._+%".

(** Letters, digits and the underscore: the alphabet of a plain handle. *)
Definition is_handle_char (c : ascii) : bool :=
  URL.is_alnum (N_of_ascii c) || Ascii.eqb c "_".

(** The characters of the decimal text of a number. *)
Definition is_number_char (c : ascii) : bool :=
  Grammar.is_digit c || Ascii.eqb c "." || Ascii.eqb c "-".



(** The value that a schema with [.default(d)] looks at. *)
Definition or_default (v d : value) : value :=
  match v with
  | VUndefined => d
  | _ => v
  end.

(** The six counters of a tweet and their keys under [metrics]. *)
Definition metric_fields : list (string * (Tweet.t -> option number)) :=
  [("views", Tweet.view_count);
   ("likes", Tweet.like_count);
   ("replies", Tweet.reply_count);
   ("retweets", Tweet.retweet_count);
   ("quotes", Tweet.quote_count);
   ("bookmarks", Tweet.bookmark_count)].

(** The four fields of the arguments of [getTopTweets]. *)
Definition top_tweets_keys : list string :=
  ["author_handle"; "interval"; "sort_by"; "limit"].






(** More sample inputs. *)
Definition busy_tweet : Tweet.t :=
  Tweet.mk "2" "kaitoai" "wagmi" "2025-01-02T00:00:00Z"
    (Some (mkNumber 1234567 0)) (Some (mkNumber 0 0)) None None None None
    (Some ["BTC"; "ETH"]).

Definition two_tweets_net : network TopTweetsResponse.t :=
  fun _ =>
    Normal (mkResponse
              (Some (TopTweetsResponse.mk (Some [quiet_tweet; busy_tweet]) "ok"))
              200 "OK").

Definition raw_handle_only : value := VObj [("author_handle", VStr "kaitoai")].

Definition raw_all_wrong : value :=
  VObj [("author_handle", VNum (Num.of_Z 7)); ("interval", VStr "1week");
        ("sort_by", VStr "quote_count_desc"); ("limit", VNum (Num.of_Z 51))].

(** Whether the schema that [getTopTweets] declares for the field [key]
    accepts what the raw arguments hold there. *)
Definition field_accepts (raw : value) (key : string) : bool :=
  if (key =? "author_handle")%string then
    Zod.is_success (Zod.string (get raw key))
  else if (key =? "interval")%string then
    Zod.is_success (GetTopTweets.interval_schema (get raw key))
  else if (key =? "sort_by")%string then
    Zod.is_success (GetTopTweets.sort_by_schema (get raw key))
  else
    Zod.is_success (GetTopTweets.limit_schema (get raw key)).

(** A schema reports well when its issues carry no path of their own and
    every rejection comes with at least one issue. *)
Definition reports_well {A} (schema : Zod.ZodType A) : Prop :=
  forall v,
    Forall (fun issue => Zod.path issue = []) (Zod.issues_of (schema v))
    /\ (Zod.is_success (schema v) = false -> Zod.issues_of (schema v) <> []).

(** The tests by which the two encoders keep a character as it is. *)
Definition uri_keeps (c : ascii) : bool :=
  URL.is_alnum (N_of_ascii c) || URL.mem_chars c "-_.!~*'()".

Definition form_keeps (c : ascii) : bool :=
  URL.is_alnum (N_of_ascii c) || URL.mem_chars c "*-._".


Definition details_endpoint : string :=
  "https://api.cred.buzz/user/author-handle-details?author_handle=".

Definition tweets_endpoint : string :=
  "https://api.cred.buzz/user/get-top-tweets?author_handle=".

(* ================================================================== *)
(** * Strings *)
(* ================================================================== *)

Lemma append_assoc (a b c : string) : (a ++ b) ++ c = a ++ b ++ c.
Proof. induction a; cbn; [reflexivity | now rewrite IHa]. Qed.

Lemma append_nil_r (a : string) : a ++ "" = a.
Proof. induction a; cbn; [reflexivity | now rewrite IHa]. Qed.

Lemma list_ascii_of_string_app (a b : string) :
  list_ascii_of_string (a ++ b)
  = (list_ascii_of_string a ++ list_ascii_of_string b)%list.
Proof. induction a; cbn; [reflexivity | now rewrite IHa]. Qed.

Lemma string_of_list_ascii_app (l1 l2 : list ascii) :
  string_of_list_ascii (l1 ++ l2)
  = string_of_list_ascii l1 ++ string_of_list_ascii l2.
Proof. induction l1; cbn; [reflexivity | now rewrite IHl1]. Qed.

Lemma length_string_of_list_ascii (l : list ascii) :
  String.length (string_of_list_ascii l) = List.length l.
Proof. induction l; cbn; [reflexivity | now rewrite IHl]. Qed.

Lemma concat_cons_empty_sep (x : string) (xs : list string) :
  String.concat "" (x :: xs) = x ++ String.concat "" xs.
Proof. destruct xs; cbn; [now rewrite append_nil_r | reflexivity]. Qed.

Lemma all_app p (a b : string) :
  Grammar.all p a -> Grammar.all p b -> Grammar.all p (a ++ b).
Proof.
  unfold Grammar.all. rewrite list_ascii_of_string_app, forallb_app.
  now intros -> ->.
Qed.

Lemma Some_inj {A} (a b : A) : Some a = Some b -> a = b.
Proof. now intros [= ->]. Qed.

(* ================================================================== *)
(** * Grouping by thousands *)
(* ================================================================== *)

Lemma chunk3_multiple (n : nat) :
  forall l,
    List.length l = (3 * n)%nat ->
    Forall (fun g => String.length g = 3%nat) (Num.chunk3 l)
    /\ String.concat "" (Num.chunk3 l) = string_of_list_ascii l.
Proof.
  induction n as [|n IH]; intros l Hlen.
  - destruct l; [|discriminate]. split; [constructor | reflexivity].
  - destruct l as [|a [|b [|c rest]]]; try (cbn in Hlen; lia).
    destruct (IH rest) as [Hall Hcat]; [cbn in Hlen; lia|].
    cbn [Num.chunk3]. split.
    + constructor; [reflexivity | assumption].
    + rewrite concat_cons_empty_sep, Hcat. reflexivity.
Qed.

Lemma groups_spec (s : string) :
  s <> "" -> grouped_thousands s (Num.group_thousands s).
Proof.
  intros Hne. unfold grouped_thousands, Num.group_thousands, Num.groups.
  set (l := list_ascii_of_string s).
  assert (Hs : s = string_of_list_ascii l)
    by (symmetry; apply string_of_list_ascii_of_string).
  assert (Hl : l <> []).
  { intros E. rewrite E in Hs. cbn in Hs. contradiction. }
  pose proof (Nat.div_mod_eq (List.length l) 3) as Hdiv.
  pose proof (Nat.mod_upper_bound (List.length l) 3 ltac:(lia)) as Hmod.
  destruct (List.length l mod 3)%nat as [|r] eqn:Hr.
  - destruct (chunk3_multiple (List.length l / 3) l) as [Hall Hcat]; [lia|].
    destruct l as [|a [|b [|c rest]]]; try contradiction;
      try (cbn in Hdiv; lia).
    cbn [Num.chunk3] in *.
    exists (String a (String b (String c ""))), (Num.chunk3 rest).
    repeat split; try (cbn; lia).
    + now inversion Hall.
    + now rewrite Hcat.
  - destruct (chunk3_multiple (List.length l / 3) (skipn (S r) l))
      as [Hall Hcat]; [rewrite length_skipn; lia|].
    exists (string_of_list_ascii (firstn (S r) l)),
      (Num.chunk3 (skipn (S r) l)).
    rewrite length_string_of_list_ascii, length_firstn.
    repeat split; try lia; [assumption|].
    rewrite concat_cons_empty_sep, Hcat, <- string_of_list_ascii_app,
      firstn_skipn.
    assumption.
Qed.

(* ================================================================== *)
(** * The textual forms of a number *)
(* ================================================================== *)

Lemma digits_head (n : N) :
  exists c rest, Num.digits n = String c rest /\ Grammar.is_digit c = true.
Proof.
  unfold Num.digits, NilZero.string_of_uint.
  destruct (N.to_uint n); cbn; eauto.
Qed.

Lemma group_thousands_head c s :
  exists rest, Num.group_thousands (String c s) = String c rest.
Proof.
  destruct (groups_spec (String c s)) as (first & rest & Hlen & _ & Hds & Hout);
    [discriminate|].
  rewrite Hout. rewrite concat_cons_empty_sep in Hds.
  destruct first as [|c0 first]; [cbn in Hlen; lia|].
  cbn in Hds. injection Hds as -> _.
  destruct rest; cbn; eauto.
Qed.

Lemma toLocaleString_head (n : number) :
  exists c rest,
    Num.toLocaleString n = String c rest
    /\ (c = "-"%char \/ Grammar.is_digit c = true).
Proof.
  unfold Num.toLocaleString, Num.sign_of.
  set (q := (_ / 1000)%N). set (f := Num.strip_trailing_zeros _).
  destruct (digits_head q) as (c & rest & Hq & Hc).
  destruct (group_thousands_head c rest) as (rest' & Hg).
  destruct (mant n <? 0); [cbn; eauto|].
  rewrite Hq, Hg. unfold Num.with_fraction.
  destruct f; cbn; eauto.
Qed.

Lemma toLocaleString_not_sentinel (n : number) : Num.toLocaleString n <> "N/A".
Proof.
  destruct (toLocaleString_head n) as (c & rest & -> & [-> | Hc]);
    [discriminate|].
  intros E. injection E as -> _. discriminate.
Qed.

(** [x?.toLocaleString() || 'N/A'] keeps the formatted text of every
    number: that text is never empty. *)
Lemma or_else_toLocaleString (n : number) :
  or_else (opt_toLocaleString (Some n)) NA = VStr (Num.toLocaleString n).
Proof.
  destruct (toLocaleString_head n) as (c & rest & H & _).
  unfold or_else. cbn. now rewrite H.
Qed.

Lemma pow10_N_pos (k : nat) : (0 < 10 ^ N.of_nat k)%N.
Proof. apply N.neq_0_lt_0, N.pow_nonzero. discriminate. Qed.

Lemma toLocaleString_zero (n : number) :
  Num.is_zero n = true -> Num.toLocaleString n = "0".
Proof.
  destruct n as [m k]. unfold Num.is_zero. cbn [mant].
  intros ->%Z.eqb_eq. unfold Num.toLocaleString. cbn [mant scale Z.abs_N].
  pose proof (pow10_N_pos k) as Hp.
  replace ((2 * 1000 * 0 + 10 ^ N.of_nat k) / (2 * 10 ^ N.of_nat k))%N
    with 0%N by (symmetry; apply N.div_small; lia).
  reflexivity.
Qed.

Lemma abs_N_whole (q : N) (k : nat) :
  Z.abs_N (Z.of_N q * Num.pow10 k) = (q * 10 ^ N.of_nat k)%N.
Proof.
  unfold Num.pow10.
  rewrite Zabs2N.inj_mul, Zabs2N.id, Zabs2N.inj_pow by lia.
  now rewrite <- nat_N_Z, Zabs2N.id.
Qed.

Lemma toLocaleString_whole (q : N) (k : nat) :
  Num.toLocaleString (whole q k) = Num.group_thousands (Num.digits q).
Proof.
  unfold Num.toLocaleString, Num.sign_of, whole. cbn [mant scale].
  rewrite abs_N_whole.
  pose proof (pow10_N_pos k) as Hp.
  replace (Z.of_N q * Num.pow10 k <? 0) with false
    by (symmetry; apply Z.ltb_ge; unfold Num.pow10; nia).
  replace ((2 * 1000 * (q * 10 ^ N.of_nat k) + 10 ^ N.of_nat k)
           / (2 * 10 ^ N.of_nat k))%N with (q * 1000)%N
    by (apply N.div_unique with (r := (10 ^ N.of_nat k)%N); [lia | ring]).
  rewrite N.div_mul, N.Div0.mod_mul by discriminate.
  reflexivity.
Qed.

Lemma nzhead_not_D0 d d' : Decimal.nzhead d <> Decimal.D0 d'.
Proof. induction d; cbn; try discriminate; assumption. Qed.

Lemma string_of_uint_digits d :
  Grammar.all Grammar.is_digit (NilEmpty.string_of_uint d).
Proof. unfold Grammar.all. induction d; cbn; auto. Qed.

(** The digits of a natural number form a JSON [int]: no leading zero. *)
Lemma digits_int (n : N) : Grammar.int (Num.digits n).
Proof.
  unfold Num.digits.
  assert (Hnorm : N.to_uint n = Decimal.unorm (N.to_uint n)).
  { rewrite <- DecimalN.Unsigned.to_of, DecimalN.Unsigned.of_to. reflexivity. }
  rewrite Hnorm. unfold Decimal.unorm.
  pose proof (nzhead_not_D0 (N.to_uint n)) as Hhead.
  pose proof (string_of_uint_digits (Decimal.nzhead (N.to_uint n))) as Hall.
  destruct (Decimal.nzhead (N.to_uint n)) as [|d|d|d|d|d|d|d|d|d|d];
    [left; reflexivity | now destruct (Hhead d) | ..];
    right; cbn; eexists _, _; (split; [reflexivity|]); split;
    solve [reflexivity | exact Hall].
Qed.

Lemma digit_char_is_digit (d : N) :
  (d < 10)%N -> Grammar.is_digit (Num.digit_char d) = true.
Proof.
  intros H.
  assert (d = 0 \/ d = 1 \/ d = 2 \/ d = 3 \/ d = 4 \/ d = 5 \/ d = 6
          \/ d = 7 \/ d = 8 \/ d = 9)%N as Hd by lia.
  repeat (destruct Hd as [-> | Hd]; [reflexivity|]). now subst.
Qed.

Lemma frac_digits_all (k : nat) (r : N) :
  Grammar.all Grammar.is_digit (Num.frac_digits k r).
Proof.
  unfold Grammar.all. induction k as [|k IH]; [reflexivity|].
  cbn [Num.frac_digits list_ascii_of_string forallb].
  rewrite digit_char_is_digit by (apply N.mod_lt; discriminate).
  exact IH.
Qed.

Lemma strip_trailing_zeros_all (s : string) :
  Grammar.all Grammar.is_digit s ->
  Grammar.all Grammar.is_digit (Num.strip_trailing_zeros s).
Proof.
  unfold Grammar.all. induction s as [|c s IH]; [trivial|].
  cbn [list_ascii_of_string forallb Num.strip_trailing_zeros].
  intros [Hc Hs]%andb_prop. specialize (IH Hs).
  destruct (Num.strip_trailing_zeros s).
  - destruct (Num.is_zero_char c); [reflexivity|]. cbn. now rewrite Hc.
  - cbn [list_ascii_of_string forallb] in *. now rewrite Hc, IH.
Qed.

(** [Number::toString] prints a JSON [number]. *)
Lemma toString_number (x : number) : Grammar.number (Num.toString x).
Proof.
  unfold Num.toString.
  set (q := (_ / _)%N).
  pose proof (strip_trailing_zeros_all _
                (frac_digits_all (scale x)
                   (Z.abs_N (mant x) mod 10 ^ N.of_nat (scale x)))) as Hfrac.
  destruct (Num.strip_trailing_zeros _) as [|c f] eqn:Hf.
  - exists (Num.sign_of (mant x)), (Num.digits q), "", "".
    repeat split.
    + unfold Num.sign_of. destruct (mant x <? 0); auto.
    + apply digits_int.
    + now left.
    + now left.
    + cbn [Num.with_fraction]. now rewrite !append_nil_r.
  - exists (Num.sign_of (mant x)), (Num.digits q), ("." ++ String c f), "".
    repeat split.
    + unfold Num.sign_of. destruct (mant x <? 0); auto.
    + apply digits_int.
    + right. exists (String c f). repeat split; [discriminate | assumption].
    + now left.
    + cbn [Num.with_fraction]. now rewrite !append_nil_r.
Qed.

(* ================================================================== *)
(** * The output of JSON.stringify is JSON *)
(* ================================================================== *)

Lemma escape_char_chars (c : ascii) (s : string) :
  Grammar.chars s -> Grammar.chars (JSON.escape_char c ++ s).
Proof.
  intros Hs.
  destruct c as [[] [] [] [] [] [] [] []]; cbn;
    first [ apply Grammar.chars_unescaped; [reflexivity | exact Hs]
          | apply Grammar.chars_escape; [reflexivity | exact Hs]
          | apply Grammar.chars_unicode; [reflexivity.. | exact Hs] ].
Qed.

Lemma escape_chars (s : string) : Grammar.chars (JSON.escape s).
Proof.
  induction s as [|c s IH]; cbn [JSON.escape];
    [constructor | now apply escape_char_chars].
Qed.

Lemma QuoteJSONString_str (s : string) : Grammar.str (JSON.QuoteJSONString s).
Proof. exists (JSON.escape s). split; [apply escape_chars | reflexivity]. Qed.

(** Induction on a value and, through its lists, on its components. *)
Lemma value_components_ind (P : value -> Prop) :
  P VUndefined -> P VNull -> (forall b, P (VBool b)) ->
  (forall n, P (VNum n)) -> (forall s, P (VStr s)) ->
  (forall elems, Forall P elems -> P (VArr elems)) ->
  (forall props, Forall (fun kv => P (snd kv)) props -> P (VObj props)) ->
  forall v, P v.
Proof.
  intros Hundef Hnull Hbool Hnum Hstr Harr Hobj.
  fix IH 1. intros [| |b|n|s|elems|props].
  - exact Hundef.
  - exact Hnull.
  - apply Hbool.
  - apply Hnum.
  - apply Hstr.
  - apply Harr.
    induction elems as [|e elems IHl]; constructor; [apply IH | exact IHl].
  - apply Hobj.
    induction props as [|[k v] props IHl]; constructor;
      [apply IH | exact IHl].
Qed.

Lemma ws_nil : Grammar.ws "".
Proof. reflexivity. Qed.

Lemma ws_LF_indent (indent : string) :
  Grammar.ws indent -> Grammar.ws (JSON.LF ++ indent).
Proof. intros H. apply all_app; [reflexivity | exact H]. Qed.

Lemma ws_indent_gap (indent : string) :
  Grammar.ws indent -> Grammar.ws (indent ++ JSON.gap).
Proof. intros H. apply all_app; [exact H | reflexivity]. Qed.

Lemma elements_join (wsep : string) :
  Grammar.ws wsep ->
  forall ps w1 w2,
    ps <> [] -> Forall Grammar.value ps ->
    Grammar.ws w1 -> Grammar.ws w2 ->
    Grammar.elements (w1 ++ String.concat ("," ++ wsep) ps ++ w2).
Proof.
  intros Hsep. induction ps as [|p ps IH]; [contradiction|].
  intros w1 w2 _ Hps Hw1 Hw2.
  inversion Hps as [|? ? Hp Hrest]; subst.
  destruct ps as [|q ps].
  - cbn [String.concat]. now apply Grammar.elements_one.
  - replace (w1 ++ String.concat ("," ++ wsep) (p :: q :: ps) ++ w2)
      with (w1 ++ p ++ "" ++ ","
              ++ (wsep ++ String.concat ("," ++ wsep) (q :: ps) ++ w2))
      by (cbn [String.concat]; now rewrite !append_assoc).
    apply Grammar.elements_more; auto using ws_nil.
    apply IH; auto. discriminate.
Qed.

Lemma member_more_eq (w1 k v sep rest w2 : string) :
  w1 ++ ((k ++ ": " ++ v) ++ ("," ++ sep) ++ rest) ++ w2
  = w1 ++ k ++ "" ++ ":" ++ " " ++ v ++ "" ++ "," ++ (sep ++ rest ++ w2).
Proof. now rewrite !append_assoc. Qed.

Lemma members_join (wsep : string) :
  Grammar.ws wsep ->
  forall ms w1 w2,
    ms <> [] -> Forall written_member ms ->
    Grammar.ws w1 -> Grammar.ws w2 ->
    Grammar.members (w1 ++ String.concat ("," ++ wsep) ms ++ w2).
Proof.
  intros Hsep. induction ms as [|m ms IH]; [contradiction|].
  intros w1 w2 _ Hms Hw1 Hw2.
  inversion Hms as [|? ? (k & v & Hk & Hv & ->) Hrest]; subst.
  destruct ms as [|m' ms].
  - cbn [String.concat].
    match goal with
    | |- Grammar.members ?g =>
        replace g with (w1 ++ k ++ "" ++ ":" ++ " " ++ v ++ w2)
          by (cbn; now rewrite !append_assoc)
    end.
    apply Grammar.members_one; auto using ws_nil.
  - refine (eq_ind_r Grammar.members _
              (member_more_eq w1 k v wsep
                 (String.concat ("," ++ wsep) (m' :: ms)) w2)).
    apply Grammar.members_more; auto using ws_nil.
    apply IH; auto. discriminate.
Qed.

Lemma bracketed (open close a b c d : string) :
  open ++ a ++ b ++ c ++ a ++ d ++ close
  = open ++ ((a ++ b) ++ c ++ (a ++ d)) ++ close.
Proof. now rewrite !append_assoc. Qed.

(** Every text that [SerializeJSONProperty] writes is a JSON value. *)
Lemma SerializeJSONProperty_value (v : value) :
  forall indent s,
    Grammar.ws indent ->
    JSON.SerializeJSONProperty indent v = Some s -> Grammar.value s.
Proof.
  induction v as [| |b|n|str|elems IH|props IH] using value_components_ind;
    intros indent s Hindent Hs; cbn [JSON.SerializeJSONProperty] in Hs.
  - discriminate.
  - injection Hs as <-. constructor.
  - destruct b; injection Hs as <-; constructor.
  - injection Hs as <-. apply Grammar.value_number, toString_number.
  - injection Hs as <-. apply Grammar.value_string, QuoteJSONString_str.
  - apply Some_inj in Hs. subst s.
    pose proof (ws_indent_gap _ Hindent) as Hinner.
    set (partial := map _ elems).
    assert (Hall : Forall Grammar.value partial).
    { subst partial.
      induction IH as [|e elems He _ IHl]; cbn [map]; constructor; [|exact IHl].
      destruct (JSON.SerializeJSONProperty (indent ++ JSON.gap) e) eqn:E;
        [now apply (He _ _ Hinner) | constructor]. }
    destruct partial as [|p ps].
    + apply (Grammar.value_empty_array ""), ws_nil.
    + refine (eq_ind_r Grammar.value _
                (bracketed "[" "]" JSON.LF (indent ++ JSON.gap)
                   (String.concat ("," ++ JSON.LF ++ indent ++ JSON.gap)
                      (p :: ps)) indent)).
      apply Grammar.value_array.
      apply (elements_join (JSON.LF ++ indent ++ JSON.gap));
        auto using ws_LF_indent; discriminate.
  - apply Some_inj in Hs. subst s.
    pose proof (ws_indent_gap _ Hindent) as Hinner.
    set (partial := flat_map _ props).
    assert (Hall : Forall written_member partial).
    { subst partial.
      induction IH as [|kv props Hkv _ IHl]; cbn [flat_map]; [constructor|].
      apply Forall_app; split; [|exact IHl].
      destruct (JSON.SerializeJSONProperty (indent ++ JSON.gap) (snd kv))
        eqn:E; constructor; [|constructor].
      eexists _, _; repeat split;
        [apply QuoteJSONString_str | now apply (Hkv _ _ Hinner)]. }
    destruct partial as [|m ms].
    + apply (Grammar.value_empty_object ""), ws_nil.
    + refine (eq_ind_r Grammar.value _
                (bracketed "{" "}" JSON.LF (indent ++ JSON.gap)
                   (String.concat ("," ++ JSON.LF ++ indent ++ JSON.gap)
                      (m :: ms)) indent)).
      apply Grammar.value_object.
      apply (members_join (JSON.LF ++ indent ++ JSON.gap));
        auto using ws_LF_indent; discriminate.
Qed.

Lemma stringify_text (v : value) (s : string) :
  JSON.stringify v = VStr s -> Grammar.text s.
Proof.
  unfold JSON.stringify.
  destruct (JSON.SerializeJSONProperty "" v) as [str|] eqn:E; [|discriminate].
  intros [= <-]. exists "", str, "".
  repeat split; auto using ws_nil.
  - now apply (SerializeJSONProperty_value v "").
  - cbn. now rewrite append_nil_r.
Qed.

(** [JSON.stringify] of an object literal is a string, never [undefined]. *)
Lemma stringify_object props : exists s, JSON.stringify (VObj props) = VStr s.
Proof. unfold JSON.stringify. cbn [JSON.SerializeJSONProperty]. eauto. Qed.

(** Conversely the grammar is selective: a JSON text starts with white
    space, a digit, a quote or one of [n t f - [ {]. *)
Lemma value_first_char (v : string) :
  Grammar.value v ->
  exists c rest,
    v = String c rest
    /\ (Grammar.is_digit c = true \/ c = Grammar.QUOTE
        \/ In c (list_ascii_of_string "ntf-[{")).
Proof.
  intros [ | | | s (sign & i & f & e & Hsign & Hint & _ & _ & ->)
           | s (body & _ & ->) | w _ | body _ | w _ | body _ ];
    try (eexists _, _; split; [reflexivity|]; cbn; tauto).
  destruct Hsign as [-> | ->];
    [|eexists _, _; split; [reflexivity|]; cbn; tauto].
  destruct Hint as [-> | (c & rest & -> & Hc & _)];
    eexists _, _; (split; [reflexivity|]); left; [reflexivity|].
  unfold Grammar.is_digit, Grammar.is_digit1_9 in *.
  apply andb_prop in Hc as [Hlo Hhi]. rewrite Hhi, andb_true_r.
  apply N.leb_le in Hlo. apply N.leb_le. lia.
Qed.

Lemma text_first_char (s : string) :
  Grammar.text s ->
  exists c rest,
    s = String c rest
    /\ (Grammar.is_ws c = true \/ Grammar.is_digit c = true
        \/ c = Grammar.QUOTE \/ In c (list_ascii_of_string "ntf-[{")).
Proof.
  intros (w1 & v & w2 & Hw1 & Hv & _ & ->).
  destruct w1 as [|c w1].
  - destruct (value_first_char v Hv) as (c & rest & -> & Hc).
    exists c, (rest ++ w2). split; [reflexivity | tauto].
  - exists c, (w1 ++ v ++ w2). split; [reflexivity|]. left.
    unfold Grammar.ws, Grammar.all in Hw1. cbn in Hw1.
    now apply andb_prop in Hw1.
Qed.

(** In particular the fixed sentences of the capabilities are not JSON. *)
Lemma sentences_are_not_json :
  ~ Grammar.text "No author details found for the provided handle."
  /\ ~ Grammar.text "API error: undefined - undefined"
  /\ ~ Grammar.text "N/A".
Proof.
  repeat split; intros (c & rest & [= <- _] & H)%text_first_char;
    cbn in H; intuition discriminate.
Qed.

(* ================================================================== *)
(** * Running a capability against a fixed answer of the network *)
(* ================================================================== *)

Create HintDb capability discriminated.

#[local] Hint Unfold GetAuthorDetails.run GetAuthorDetails.fetch
  GetTopTweets.run GetTopTweets.fetch try_catch bind axios_get console_log
  console_error : capability.

(** Unfold a run up to its request and feed it the answer [Hnet]. *)
Ltac answer_with Hnet := autounfold with capability; rewrite Hnet.

Lemma run_details_resolved args net response :
  net (GetAuthorDetails.url args) = Normal response ->
  fst (GetAuthorDetails.run args net) =
    Normal match data response with
           | None => GetAuthorDetails.no_details
           | Some body =>
               match CredBuzzResponse.result body with
               | None => GetAuthorDetails.no_details
               | Some author =>
                   JSON.stringify (GetAuthorDetails.formattedDetails author)
               end
           end.
Proof.
  intros Hnet.
  answer_with Hnet.
  destruct (data response) as [body|]; [|reflexivity].
  destruct (CredBuzzResponse.result body); reflexivity.
Qed.

Lemma run_details_rejected args net error :
  net (GetAuthorDetails.url args) = Throw error ->
  fst (GetAuthorDetails.run args net) =
    fst (GetAuthorDetails.translate error net).
Proof.
  intros Hnet.
  answer_with Hnet.
  destruct (GetAuthorDetails.translate error net); reflexivity.
Qed.

Lemma run_tweets_resolved args net response :
  net (GetTopTweets.url args) = Normal response ->
  fst (GetTopTweets.run args net) =
    Normal match data response with
           | None => GetTopTweets.no_response
           | Some body =>
               match TopTweetsResponse.result body with
               | None => GetTopTweets.no_tweets args
               | Some tweets =>
                   if (List.length tweets =? 0)%nat
                   then GetTopTweets.no_tweets args
                   else JSON.stringify (GetTopTweets.summary args tweets)
               end
           end.
Proof.
  intros Hnet.
  answer_with Hnet.
  destruct (data response) as [body|]; [|reflexivity].
  destruct (TopTweetsResponse.result body) as [tweets|]; [|reflexivity].
  destruct (List.length tweets =? 0)%nat; reflexivity.
Qed.

Lemma run_tweets_rejected args net error :
  net (GetTopTweets.url args) = Throw error ->
  fst (GetTopTweets.run args net) = fst (GetTopTweets.translate error net).
Proof.
  intros Hnet.
  answer_with Hnet.
  destruct (GetTopTweets.translate error net); reflexivity.
Qed.

Lemma translate_details_string error net :
  exists s, fst (GetAuthorDetails.translate error net) = Normal (VStr s).
Proof.
  unfold GetAuthorDetails.translate, bind, console_error.
  destruct (isAxiosError error).
  - destruct (strict_eq_num _ 404); [cbn; eauto|].
    destruct (strict_eq_num _ 429); cbn; eauto.
  - cbn; eauto.
Qed.

Lemma translate_tweets_string error net :
  exists s, fst (GetTopTweets.translate error net) = Normal (VStr s).
Proof.
  unfold GetTopTweets.translate, bind, console_error.
  destruct (isAxiosError error).
  - destruct (strict_eq_num _ 404); [cbn; eauto|].
    destruct (strict_eq_num _ 429); cbn; eauto.
  - cbn; eauto.
Qed.

Lemma status_eq_spec status n :
  strict_eq_num (VNum (Num.of_Z status)) n = (status =? n).
Proof.
  unfold strict_eq_num, Num.eqb, Num.of_Z, Num.pow10; cbn.
  now rewrite !Z.mul_1_r.
Qed.

Lemma details_run_string args net :
  exists s, fst (GetAuthorDetails.run args net) = Normal (VStr s).
Proof.
  destruct (net (GetAuthorDetails.url args)) as [response|error] eqn:Hnet.
  - rewrite (run_details_resolved _ _ _ Hnet).
    destruct (data response) as [body|]; [|cbv; eauto].
    destruct (CredBuzzResponse.result body) as [author|]; [|cbv; eauto].
    unfold GetAuthorDetails.formattedDetails.
    edestruct stringify_object as [s Hs]. exists s. now rewrite Hs.
  - rewrite (run_details_rejected _ _ _ Hnet).
    apply translate_details_string.
Qed.

Lemma tweets_run_string args net :
  exists s, fst (GetTopTweets.run args net) = Normal (VStr s).
Proof.
  destruct (net (GetTopTweets.url args)) as [response|error] eqn:Hnet.
  - rewrite (run_tweets_resolved _ _ _ Hnet).
    destruct (data response) as [body|]; [|cbv; eauto].
    destruct (TopTweetsResponse.result body) as [tweets|];
      [|unfold GetTopTweets.no_tweets; eauto].
    destruct (List.length tweets =? 0)%nat;
      [unfold GetTopTweets.no_tweets; eauto|].
    unfold GetTopTweets.summary.
    edestruct stringify_object as [s Hs]. exists s. now rewrite Hs.
  - rewrite (run_tweets_rejected _ _ _ Hnet).
    apply translate_tweets_string.
Qed.

Lemma invoke_never_raises {Args D} (schema : Zod.ZodType Args)
  (run : Args -> Async D value) :
  (forall args net, exists s, fst (run args net) = Normal (VStr s)) ->
  forall raw net e, fst (invoke schema run raw net) <> Raised e.
Proof.
  intros Hrun raw net e. unfold invoke.
  destruct (schema raw) as [args|issues]; [|discriminate].
  destruct (Hrun args net) as [s Hs].
  destruct (run args net) as [[v|e'] t]; cbn in *; discriminate.
Qed.

Lemma invoke_failure {Args D} (schema : Zod.ZodType Args)
  (run : Args -> Async D value) raw net issues :
  schema raw = Zod.failure issues ->
  invoke schema run raw net = (ValidationError issues, []).
Proof. intros H. unfold invoke. now rewrite H. Qed.

(* ================================================================== *)
(** * The fields of the rendered details *)
(* ================================================================== *)

Lemma in_count_fields key field :
  In (key, field) count_fields ->
  forall author,
    get (GetAuthorDetails.formattedDetails author) key
    = or_else (opt_toLocaleString (field author)) NA.
Proof.
  unfold count_fields. cbn [In].
  intros [H|[H|[H|[H|[H|[]]]]]] author; injection H as <- <-; reflexivity.
Qed.

Lemma in_plain_number_fields key field :
  In (key, field) plain_number_fields ->
  forall author,
    get (GetAuthorDetails.formattedDetails author) key
    = or_else (of_number (field author)) NA.
Proof.
  unfold plain_number_fields. cbn [In].
  intros [H|[H|[H|[H|[H|[H|[H|[]]]]]]]] author; injection H as <- <-;
    reflexivity.
Qed.

Lemma in_text_fields key field :
  In (key, field) text_fields ->
  forall author,
    get (GetAuthorDetails.formattedDetails author) key
    = or_else (of_string (field author)) NA.
Proof.
  unfold text_fields. cbn [In].
  intros [H|[H|[H|[H|[]]]]] author; injection H as <- <-; reflexivity.
Qed.

(** [a || 'N/A'] is never [undefined] or [null]. *)
Lemma or_else_sentinel_defined (a : value) :
  or_else a NA <> VUndefined /\ or_else a NA <> VNull.
Proof.
  unfold or_else, NA.
  destruct (truthy a) eqn:Ha; [|split; discriminate].
  destruct a; cbn in Ha; try discriminate; split; discriminate.
Qed.

(* ================================================================== *)
(** * The schemas *)
(* ================================================================== *)

Lemma limit_schema_number n :
  GetTopTweets.limit_schema (VNum n) =
    if Num.leb (Num.of_Z 1) n then
      if Num.leb n (Num.of_Z 50) then Zod.success n
      else Zod.failure [Zod.mkIssue Zod.too_big []]
    else
      if Num.leb n (Num.of_Z 50) then Zod.failure [Zod.mkIssue Zod.too_small []]
      else Zod.failure [Zod.mkIssue Zod.too_small []; Zod.mkIssue Zod.too_big []].
Proof.
  unfold GetTopTweets.limit_schema, Zod.default, Zod.number.
  cbn [flat_map Zod.run_check].
  destruct (Num.leb (Num.of_Z 1) n), (Num.leb n (Num.of_Z 50)); reflexivity.
Qed.

Lemma member_failure {A} key (schema : Zod.ZodType A) input :
  Zod.is_success (schema (get input key)) = false ->
  exists issues, Zod.member key schema input = Zod.failure issues.
Proof.
  unfold Zod.member. destruct (schema (get input key)); [discriminate|eauto].
Qed.

Lemma string_schema_rejects v :
  (forall s, v <> VStr s) -> Zod.is_success (Zod.string v) = false.
Proof. destruct v; intros H; try reflexivity. now destruct (H s). Qed.

Lemma top_tweets_schema_member_failure raw :
  (Zod.is_success (Zod.member "author_handle" Zod.string raw) = false
   \/ Zod.is_success
        (Zod.member "limit" GetTopTweets.limit_schema raw) = false) ->
  exists issues, GetTopTweets.schema raw = Zod.failure issues.
Proof.
  intros H. unfold GetTopTweets.schema.
  destruct (Zod.is_object raw); [|eauto].
  destruct (Zod.member "author_handle" Zod.string raw),
    (Zod.member "interval" GetTopTweets.interval_schema raw),
    (Zod.member "sort_by" GetTopTweets.sort_by_schema raw),
    (Zod.member "limit" GetTopTweets.limit_schema raw);
    eauto; destruct H; discriminate.
Qed.

(* ================================================================== *)
(** * The error translator *)
(* ================================================================== *)

(** C1 (as the code behaves): a transport failure of axios carries no
    [response]; it is an [AxiosError] all the same, so both capabilities
    answer through the HTTP branch with the text
    "API error: undefined - undefined", and not with "Error fetching ...". *)
Theorem transport_failure_reported_as_api_error :
  forall message,
    (forall args,
        fst (GetAuthorDetails.run args
               (fun _ => Throw (AxiosError message None)))
        = Normal (VStr "API error: undefined - undefined"))
    /\ (forall args,
        fst (GetTopTweets.run args
               (fun _ => Throw (AxiosError message None)))
        = Normal (VStr "API error: undefined - undefined"))
    /\ String.prefix "Error fetching" "API error: undefined - undefined"
       = false.
Proof.
  intros message; split; [|split]; [intros args ..|reflexivity].
  - now rewrite (run_details_rejected args _ (AxiosError message None)).
  - now rewrite (run_tweets_rejected args _ (AxiosError message None)).
Qed.

(** A failure that is not an [AxiosError] takes the last [return] of the
    handler, the one that starts with "Error fetching". *)
Lemma other_error_reported_as_error_fetching :
  (forall name message args,
      fst (GetAuthorDetails.run args (fun _ => Throw (JsError name message)))
      = Normal (VStr ("Error fetching author details: " ++ message)))
  /\ (forall name message args,
      fst (GetTopTweets.run args (fun _ => Throw (JsError name message)))
      = Normal (VStr ("Error fetching top tweets: " ++ message)))
  /\ (forall v args,
      fst (GetAuthorDetails.run args (fun _ => Throw (NonError v)))
      = Normal (VStr "Error fetching author details: Unknown error"))
  /\ (forall v args,
      fst (GetTopTweets.run args (fun _ => Throw (NonError v)))
      = Normal (VStr "Error fetching top tweets: Unknown error")).
Proof.
  split; [|split; [|split]]; intros.
  - now rewrite (run_details_rejected args _ (JsError name message)).
  - now rewrite (run_tweets_rejected args _ (JsError name message)).
  - now rewrite (run_details_rejected args _ (NonError v)).
  - now rewrite (run_tweets_rejected args _ (NonError v)).
Qed.

(** C5: whatever the network answers (a response with any body, a
    rejection with any HTTP status, a transport failure, or any other
    thrown value), a run of either capability completes normally and its
    result is a string; nothing is raised to the host. *)
Theorem no_exception_propagates :
  (forall args net,
      exists s, fst (GetAuthorDetails.run args net) = Normal (VStr s))
  /\ (forall args net,
      exists s, fst (GetTopTweets.run args net) = Normal (VStr s))
  /\ (forall raw net e, fst (getAuthorDetails raw net) <> Raised e)
  /\ (forall raw net e, fst (getTopTweets raw net) <> Raised e).
Proof.
  repeat split.
  - apply details_run_string.
  - apply tweets_run_string.
  - apply invoke_never_raises, details_run_string.
  - apply invoke_never_raises, tweets_run_string.
Qed.

(** C8: an upstream answer with an HTTP error status is translated as
    follows: 404 gives the "not found" sentence of the capability, 429
    the rate-limit sentence, and every other status the text
    "API error: <status> - <status text>". *)
Theorem http_error_status_mapping :
  forall message status text,
    let error := AxiosError message (Some (mkErrorResponse status text)) in
    (forall args net,
        net (GetAuthorDetails.url args) = Throw error ->
        fst (GetAuthorDetails.run args net) =
          Normal (VStr
            (if status =? 404 then
               "Author not found. Please check the handle and try again."
             else if status =? 429 then
               "Rate limit exceeded. Please try again later."
             else "API error: " ++ Num.toString (Num.of_Z status)
                    ++ " - " ++ text)))
    /\ (forall args net,
        net (GetTopTweets.url args) = Throw error ->
        fst (GetTopTweets.run args net) =
          Normal (VStr
            (if status =? 404 then
               "Author not found or no tweets available. Please check the handle and try again."
             else if status =? 429 then
               "Rate limit exceeded. Please try again later."
             else "API error: " ++ Num.toString (Num.of_Z status)
                    ++ " - " ++ text))).
Proof.
  intros message status text error; split; intros args net Hnet.
  - rewrite (run_details_rejected _ _ _ Hnet).
    unfold GetAuthorDetails.translate, bind, console_error, error.
    cbn [isAxiosError error_response opt_status opt_statusText err_status
           err_statusText].
    rewrite !status_eq_spec.
    destruct (status =? 404); [reflexivity|].
    destruct (status =? 429); reflexivity.
  - rewrite (run_tweets_rejected _ _ _ Hnet).
    unfold GetTopTweets.translate, bind, console_error, error.
    cbn [isAxiosError error_response opt_status opt_statusText err_status
           err_statusText].
    rewrite !status_eq_spec.
    destruct (status =? 404); [reflexivity|].
    destruct (status =? 429); reflexivity.
Qed.

(** Status 500 on [getAuthorDetails], 404 and 429 on [getTopTweets]. *)
Lemma http_error_status_mapping_witness :
  fst (GetAuthorDetails.run kaito_args (failing server_error))
  = Normal (VStr "API error: 500 - Internal Server Error")
  /\ fst (GetTopTweets.run alice_args (failing not_found))
     = Normal (VStr "Author not found or no tweets available. Please check the handle and try again.")
  /\ fst (GetTopTweets.run alice_args (failing rate_limited))
     = Normal (VStr "Rate limit exceeded. Please try again later.").
Proof.
  split; [|split].
  - exact (proj1 (http_error_status_mapping _ 500 _)
             kaito_args (failing server_error) eq_refl).
  - exact (proj2 (http_error_status_mapping _ 404 _)
             alice_args (failing not_found) eq_refl).
  - exact (proj2 (http_error_status_mapping _ 429 _)
             alice_args (failing rate_limited) eq_refl).
Defined.

(* ================================================================== *)
(** * The response normalizer *)
(* ================================================================== *)

(** C9: on a fulfilled request without a usable payload,
    [getAuthorDetails] answers "No author details found for the provided
    handle." when the body or its [result] is missing, and [getTopTweets]
    answers "No response received from the API." when the body is missing
    and the "No tweets found for author ..." sentence, with the caller's
    handle between quotes, when [result] is missing or is an empty list. *)
Theorem empty_result_messages :
  (forall args net response,
      net (GetAuthorDetails.url args) = Normal response ->
      (data response = None
       \/ exists body, data response = Some body
                       /\ CredBuzzResponse.result body = None) ->
      fst (GetAuthorDetails.run args net) =
        Normal (VStr "No author details found for the provided handle."))
  /\ (forall args net response,
      net (GetTopTweets.url args) = Normal response ->
      data response = None ->
      fst (GetTopTweets.run args net) =
        Normal (VStr "No response received from the API."))
  /\ (forall args net response body,
      net (GetTopTweets.url args) = Normal response ->
      data response = Some body ->
      (TopTweetsResponse.result body = None
       \/ TopTweetsResponse.result body = Some []) ->
      fst (GetTopTweets.run args net) =
        Normal (VStr ("No tweets found for author " ++ JSON.DQ
                        ++ GetTopTweets.author_handle args ++ JSON.DQ
                        ++ " in the specified time period."))).
Proof.
  split; [|split].
  - intros args net response Hnet Hempty.
    rewrite (run_details_resolved _ _ _ Hnet).
    destruct Hempty as [-> | (body & -> & ->)]; reflexivity.
  - intros args net response Hnet Hdata.
    rewrite (run_tweets_resolved _ _ _ Hnet), Hdata. reflexivity.
  - intros args net response body Hnet Hdata Hresult.
    rewrite (run_tweets_resolved _ _ _ Hnet), Hdata.
    destruct Hresult as [-> | ->]; reflexivity.
Qed.

(** A body without [result], no body at all, and an empty list. *)
Lemma empty_result_messages_witness :
  fst (GetAuthorDetails.run kaito_args no_result_net)
  = Normal (VStr "No author details found for the provided handle.")
  /\ fst (GetTopTweets.run alice_args no_body_net)
     = Normal (VStr "No response received from the API.")
  /\ fst (GetTopTweets.run alice_args empty_tweets_net)
     = Normal (VStr ("No tweets found for author " ++ JSON.DQ ++ "alice"
                       ++ JSON.DQ ++ " in the specified time period.")).
Proof.
  destruct empty_result_messages as (Hdetails & Hbody & Htweets).
  split; [|split].
  - apply (Hdetails kaito_args no_result_net _ eq_refl).
    right. eexists. split; reflexivity.
  - exact (Hbody alice_args no_body_net _ eq_refl eq_refl).
  - apply (Htweets alice_args empty_tweets_net _ _ eq_refl eq_refl).
    right. reflexivity.
Defined.

(** C6: when upstream returns a [result], the run returns the
    pretty-printed rendering of [formattedDetails], which is a JSON text;
    in it every nullable field that is absent is the string "N/A", and no
    property at all is [undefined] or [null]. *)
Theorem author_details_json_with_sentinels :
  forall args net response body author,
    net (GetAuthorDetails.url args) = Normal response ->
    data response = Some body ->
    CredBuzzResponse.result body = Some author ->
    let details := GetAuthorDetails.formattedDetails author in
    (exists s,
        fst (GetAuthorDetails.run args net) = Normal (VStr s)
        /\ JSON.stringify details = VStr s
        /\ Grammar.text s)
    /\ (forall key field,
          In (key, field) text_fields -> field author = None ->
          get details key = VStr "N/A")
    /\ (forall key field,
          In (key, field) (count_fields ++ plain_number_fields) ->
          field author = None ->
          get details key = VStr "N/A")
    /\ (forall key v,
          In (key, v) (properties details) ->
          v <> VUndefined /\ v <> VNull).
Proof.
  intros args net response body author Hnet Hdata Hresult details.
  split; [|split; [|split]].
  - subst details.
    destruct (stringify_object
                (properties (GetAuthorDetails.formattedDetails author)))
      as [s Hs].
    change (VObj (properties (GetAuthorDetails.formattedDetails author)))
      with (GetAuthorDetails.formattedDetails author) in Hs.
    exists s. split; [|split; [exact Hs | now apply stringify_text in Hs]].
    now rewrite (run_details_resolved _ _ _ Hnet), Hdata, Hresult, Hs.
  - intros key field Hin Hnone. subst details.
    now rewrite (in_text_fields _ _ Hin), Hnone.
  - intros key field Hin Hnone. subst details.
    apply in_app_or in Hin. destruct Hin as [Hin | Hin].
    + now rewrite (in_count_fields _ _ Hin), Hnone.
    + now rewrite (in_plain_number_fields _ _ Hin), Hnone.
  - intros key v Hin. subst details.
    cbn [properties GetAuthorDetails.formattedDetails In] in Hin.
    repeat (destruct Hin as [Hin | Hin];
            [injection Hin as <- <-;
             first [ apply or_else_sentinel_defined
                   | split; discriminate
                   | destruct (0 <? _)%nat; split; discriminate ] |]).
    contradiction.
Qed.

(** The details of [kaitoai], whose profile URL and mindshare are absent. *)
Lemma author_details_json_with_sentinels_witness :
  (exists s,
      fst (GetAuthorDetails.run kaito_args kaito_net) = Normal (VStr s)
      /\ JSON.stringify (GetAuthorDetails.formattedDetails kaitoai) = VStr s
      /\ Grammar.text s)
  /\ get (GetAuthorDetails.formattedDetails kaitoai) "profileUrl" = VStr "N/A"
  /\ get (GetAuthorDetails.formattedDetails kaitoai) "mindshare" = VStr "N/A".
Proof.
  destruct (author_details_json_with_sentinels kaito_args kaito_net _ _ kaitoai
              eq_refl eq_refl eq_refl) as (Hjson & Htext & Hnum & _).
  split; [exact Hjson|]. split.
  - apply (Htext "profileUrl" AuthorDetails.url_in_bio); [|reflexivity].
    right; right; left; reflexivity.
  - apply (Hnum "mindshare" AuthorDetails.mindshare); [|reflexivity].
    apply in_or_app. right.
    do 6 right. left. reflexivity.
Defined.

(** C2 (as the code behaves): a count field ([followers_count],
    [followings_count], [crypto_tweets_all], [crypto_tweets_views_all],
    [smart_followers_count]) that is present is rendered as the text of
    [toLocaleString]: never "N/A", "0" for zero, and the digits grouped by
    thousands for a whole number.  Each other numeric field that is present
    and not zero is rendered as the number itself. *)
Theorem count_fields_grouped_and_zero_kept :
  forall author key field,
    (In (key, field) count_fields ->
     forall n, field author = Some n ->
       get (GetAuthorDetails.formattedDetails author) key
       = VStr (Num.toLocaleString n)
       /\ Num.toLocaleString n <> "N/A"
       /\ (Num.is_zero n = true -> Num.toLocaleString n = "0")
       /\ (forall q k, n = whole q k ->
             grouped_thousands (Num.digits q) (Num.toLocaleString n)))
    /\ (In (key, field) plain_number_fields ->
        forall n, field author = Some n -> Num.is_zero n = false ->
          get (GetAuthorDetails.formattedDetails author) key = VNum n).
Proof.
  intros author key field; split.
  - intros Hin n Hfield.
    rewrite (in_count_fields _ _ Hin), Hfield, or_else_toLocaleString.
    repeat split.
    + apply toLocaleString_not_sentinel.
    + apply toLocaleString_zero.
    + intros q k ->. rewrite toLocaleString_whole.
      apply groups_spec.
      destruct (digits_head q) as (c & rest & -> & _). discriminate.
  - intros Hin n Hfield Hnz.
    rewrite (in_plain_number_fields _ _ Hin), Hfield.
    unfold or_else. cbn. now rewrite Hnz.
Qed.

(** The followers of [kaitoai], the zero of its followings, and its
    follower impact of 12.5. *)
Lemma count_fields_grouped_and_zero_kept_witness :
  get (GetAuthorDetails.formattedDetails kaitoai) "followers"
  = VStr "1,234,567"
  /\ grouped_thousands "1234567" "1,234,567"
  /\ get (GetAuthorDetails.formattedDetails kaitoai) "following" = VStr "0"
  /\ get (GetAuthorDetails.formattedDetails kaitoai) "followersImpact"
     = VNum (mkNumber 125 1).
Proof.
  destruct (count_fields_grouped_and_zero_kept kaitoai "followers"
              AuthorDetails.followers_count) as [Hcount _].
  destruct (Hcount (or_introl eq_refl) _ eq_refl) as (Hget & _ & _ & Hgroup).
  destruct (count_fields_grouped_and_zero_kept kaitoai "following"
              AuthorDetails.followings_count) as [Hzero _].
  destruct (Hzero (or_intror (or_introl eq_refl)) _ eq_refl) as (Hget0 & _).
  destruct (count_fields_grouped_and_zero_kept kaitoai "followersImpact"
              AuthorDetails.followers_impact) as [_ Hplain].
  split; [exact Hget|]. split; [exact (Hgroup 1234567%N 0%nat eq_refl)|].
  split; [exact Hget0|].
  apply Hplain; [right; left; reflexivity | reflexivity | reflexivity].
Defined.

(** C2, refuted as stated: the 1234 symbols mentioned by [kaitoai] are
    rendered as the number 1234 and not as the grouped text "1,234". *)
Lemma plain_number_field_not_grouped :
  AuthorDetails.total_symbols_mentioned kaitoai = Some (mkNumber 1234 0)
  /\ Num.toLocaleString (mkNumber 1234 0) = "1,234"
  /\ get (GetAuthorDetails.formattedDetails kaitoai) "symbolsMentioned"
     = VNum (mkNumber 1234 0)
  /\ get (GetAuthorDetails.formattedDetails kaitoai) "symbolsMentioned"
     <> VStr "1,234".
Proof. repeat split; try reflexivity. discriminate. Qed.

(** The fields written as [field || 'N/A'] lose a present zero: the
    engagement score 0 of [kaitoai] is rendered like an absent one. *)
Lemma zero_score_rendered_as_sentinel :
  AuthorDetails.engagement_score kaitoai = Some (mkNumber 0 0)
  /\ get (GetAuthorDetails.formattedDetails kaitoai) "engagementScore"
     = VStr "N/A".
Proof. split; reflexivity. Qed.

(** C7: an empty tag list is rendered as [["None"]] and a non-empty one
    as the same strings in the same order, whereas an empty
    [symbols_mentioned] list of a tweet is rendered as the empty array,
    like every list of symbols, which is rendered as it is. *)
Theorem empty_collection_rule_asymmetric :
  (forall author,
      AuthorDetails.tags author = [] ->
      get (GetAuthorDetails.formattedDetails author) "tags"
      = VArr [VStr "None"])
  /\ (forall author,
      AuthorDetails.tags author <> [] ->
      get (GetAuthorDetails.formattedDetails author) "tags"
      = VArr (map VStr (AuthorDetails.tags author)))
  /\ (forall tweet index,
      Tweet.symbols_mentioned tweet = Some [] ->
      get (GetTopTweets.formatTweet tweet index) "symbolsMentioned"
      = VArr [])
  /\ (forall tweet index symbols,
      Tweet.symbols_mentioned tweet = Some symbols ->
      get (GetTopTweets.formatTweet tweet index) "symbolsMentioned"
      = VArr (map VStr symbols)).
Proof.
  split; [|split; [|split]].
  - intros author Htags.
    change (get (GetAuthorDetails.formattedDetails author) "tags")
      with (if (0 <? List.length (AuthorDetails.tags author))%nat
            then of_strings (AuthorDetails.tags author)
            else VArr [VStr "None"]).
    now rewrite Htags.
  - intros author Htags.
    change (get (GetAuthorDetails.formattedDetails author) "tags")
      with (if (0 <? List.length (AuthorDetails.tags author))%nat
            then of_strings (AuthorDetails.tags author)
            else VArr [VStr "None"]).
    destruct (AuthorDetails.tags author); [contradiction|reflexivity].
  - intros tweet index Hsym.
    change (get (GetTopTweets.formatTweet tweet index) "symbolsMentioned")
      with (or_else (match Tweet.symbols_mentioned tweet with
                     | Some l => of_strings l
                     | None => VUndefined
                     end) (VArr [])).
    now rewrite Hsym.
  - intros tweet index symbols Hsym.
    change (get (GetTopTweets.formatTweet tweet index) "symbolsMentioned")
      with (or_else (match Tweet.symbols_mentioned tweet with
                     | Some l => of_strings l
                     | None => VUndefined
                     end) (VArr [])).
    now rewrite Hsym.
Qed.

(** The tags of [newcomer] and of [kaitoai], the symbols of [quiet_tweet]. *)
Lemma empty_collection_rule_asymmetric_witness :
  get (GetAuthorDetails.formattedDetails newcomer) "tags" = VArr [VStr "None"]
  /\ get (GetAuthorDetails.formattedDetails kaitoai) "tags"
     = VArr [VStr "ai"; VStr "defi"]
  /\ get (GetTopTweets.formatTweet quiet_tweet 0) "symbolsMentioned" = VArr [].
Proof.
  destruct empty_collection_rule_asymmetric
    as (Hempty & Hkept & Hsymbols & _).
  split; [|split].
  - exact (Hempty newcomer eq_refl).
  - apply (Hkept kaitoai). discriminate.
  - exact (Hsymbols quiet_tweet 0%nat eq_refl).
Defined.

(** C10: a string field ([name], [bio], [url_in_bio],
    [account_created_at]) that is present but empty is rendered as "N/A",
    exactly as when it is absent. *)
Theorem empty_string_rendered_as_sentinel :
  forall author key field,
    In (key, field) text_fields ->
    field author = Some "" \/ field author = None ->
    get (GetAuthorDetails.formattedDetails author) key = VStr "N/A".
Proof.
  intros author key field Hin Hfield.
  rewrite (in_text_fields _ _ Hin).
  destruct Hfield as [-> | ->]; reflexivity.
Qed.

(** The empty [bio] of [kaitoai] and the missing one of [newcomer]. *)
Lemma empty_string_rendered_as_sentinel_witness :
  AuthorDetails.bio kaitoai = Some ""
  /\ get (GetAuthorDetails.formattedDetails kaitoai) "bio" = VStr "N/A"
  /\ AuthorDetails.bio newcomer = None
  /\ get (GetAuthorDetails.formattedDetails newcomer) "bio" = VStr "N/A".
Proof.
  split; [reflexivity|]. split; [|split; [reflexivity|]].
  - apply (empty_string_rendered_as_sentinel kaitoai "bio" AuthorDetails.bio).
    + right. left. reflexivity.
    + left. reflexivity.
  - apply (empty_string_rendered_as_sentinel newcomer "bio" AuthorDetails.bio).
    + right. left. reflexivity.
    + right. reflexivity.
Defined.

(* ================================================================== *)
(** * The input validator *)
(* ================================================================== *)

(** C3 (as the code behaves): [limit] is validated as a number between 1
    and 50 inclusive.  A number in that range, integer or not, is accepted
    and kept as it is; a number outside it, and any value that is not a
    number, is rejected; an omitted [limit] becomes 5.  A rejected [limit]
    makes the whole invocation a validation failure with no request. *)
Theorem limit_validated_as_number_in_range :
  (forall n,
      Num.leb (Num.of_Z 1) n = true -> Num.leb n (Num.of_Z 50) = true ->
      GetTopTweets.limit_schema (VNum n) = Zod.success n)
  /\ (forall n,
      Num.leb (Num.of_Z 1) n = false \/ Num.leb n (Num.of_Z 50) = false ->
      Zod.is_success (GetTopTweets.limit_schema (VNum n)) = false)
  /\ (forall v,
      v <> VUndefined -> (forall n, v <> VNum n) ->
      Zod.is_success (GetTopTweets.limit_schema v) = false)
  /\ GetTopTweets.limit_schema VUndefined = Zod.success (Num.of_Z 5)
  /\ (forall raw net,
      Zod.is_success (GetTopTweets.limit_schema (get raw "limit")) = false ->
      exists issues, getTopTweets raw net = (ValidationError issues, [])).
Proof.
  repeat split.
  - intros n Hlo Hhi. now rewrite limit_schema_number, Hlo, Hhi.
  - intros n H. rewrite limit_schema_number.
    destruct (Num.leb (Num.of_Z 1) n), (Num.leb n (Num.of_Z 50));
      try reflexivity.
    destruct H; discriminate.
  - intros v Hundef Hnum.
    destruct v; try reflexivity; [now destruct Hundef | now destruct (Hnum n)].
  - intros raw net H.
    destruct (top_tweets_schema_member_failure raw) as [issues Hissues].
    + right. unfold Zod.member.
      destruct (GetTopTweets.limit_schema (get raw "limit"));
        [discriminate|reflexivity].
    + exists issues. now apply invoke_failure.
Qed.

(** The limits 1, 50 and 2.5 are accepted, 0 and 51 and a string are not. *)
Lemma limit_validated_as_number_in_range_witness :
  GetTopTweets.limit_schema (VNum (Num.of_Z 1)) = Zod.success (Num.of_Z 1)
  /\ GetTopTweets.limit_schema (VNum (Num.of_Z 50)) = Zod.success (Num.of_Z 50)
  /\ GetTopTweets.limit_schema (VNum two_and_a_half)
     = Zod.success two_and_a_half
  /\ Zod.is_success (GetTopTweets.limit_schema (VNum (Num.of_Z 0))) = false
  /\ Zod.is_success (GetTopTweets.limit_schema (VNum (Num.of_Z 51))) = false
  /\ Zod.is_success (GetTopTweets.limit_schema (VStr "5")) = false
  /\ (exists issues,
        getTopTweets
          (VObj [("author_handle", VStr "alice"); ("limit", VNum (Num.of_Z 51))])
          empty_tweets_net
        = (ValidationError issues, [])).
Proof.
  destruct limit_validated_as_number_in_range
    as (Hin & Hout & Hother & _ & Hcall).
  split; [|split; [|split; [|split; [|split; [|split]]]]].
  - apply Hin; reflexivity.
  - apply Hin; reflexivity.
  - apply Hin; reflexivity.
  - apply Hout. left. reflexivity.
  - apply Hout. right. reflexivity.
  - apply Hother; discriminate.
  - apply Hcall. reflexivity.
Defined.

(** C3, refuted as stated: the limit 2.5 is not an integer, and the
    schema of [getTopTweets] accepts it unchanged. *)
Lemma non_integer_limit_accepted :
  Num.is_integer two_and_a_half = false
  /\ GetTopTweets.schema raw_fractional_limit
     = Zod.success (GetTopTweets.mkArgs "kaitoai" "7day" "view_count_desc"
                      two_and_a_half)
  /\ requests (snd (getTopTweets raw_fractional_limit empty_tweets_net))
     = [HttpGet "https://api.cred.buzz/user/get-top-tweets?author_handle=kaitoai&interval=7day&sort_by=view_count_desc&limit=2.5"].
Proof. repeat split; reflexivity. Qed.

(** C4 (as the code behaves): [author_handle] is validated as a required
    string.  When it is absent or not a string, both capabilities report a
    validation failure and no request is made; any string, the empty one
    included, is accepted as the handle. *)
Theorem author_handle_required_string :
  (forall raw net,
      (forall s, get raw "author_handle" <> VStr s) ->
      (exists issues, getAuthorDetails raw net = (ValidationError issues, [])))
  /\ (forall raw net,
      (forall s, get raw "author_handle" <> VStr s) ->
      (exists issues, getTopTweets raw net = (ValidationError issues, [])))
  /\ (forall props s,
      lookup "author_handle" props = VStr s ->
      GetAuthorDetails.schema (VObj props)
      = Zod.success (GetAuthorDetails.mkArgs s))
  /\ (forall props s,
      lookup "author_handle" props = VStr s ->
      Zod.is_success
        (Zod.member "interval" GetTopTweets.interval_schema (VObj props)) = true ->
      Zod.is_success
        (Zod.member "sort_by" GetTopTweets.sort_by_schema (VObj props)) = true ->
      Zod.is_success
        (Zod.member "limit" GetTopTweets.limit_schema (VObj props)) = true ->
      exists args, GetTopTweets.schema (VObj props) = Zod.success args
                   /\ GetTopTweets.author_handle args = s).
Proof.
  repeat split.
  - intros raw net Hhandle.
    destruct (member_failure "author_handle" Zod.string raw
                (string_schema_rejects _ Hhandle)) as [issues Hissues].
    unfold getAuthorDetails, invoke, GetAuthorDetails.schema.
    destruct (Zod.is_object raw); [|eauto].
    rewrite Hissues. eauto.
  - intros raw net Hhandle.
    destruct (top_tweets_schema_member_failure raw) as [issues Hissues].
    + left.
      destruct (member_failure "author_handle" Zod.string raw
                  (string_schema_rejects _ Hhandle)) as [issues Hissues].
      now rewrite Hissues.
    + exists issues. now apply invoke_failure.
  - intros props s Hlookup.
    unfold GetAuthorDetails.schema, Zod.member. cbn [Zod.is_object get].
    now rewrite Hlookup.
  - intros props s Hlookup Hi Hs Hl.
    unfold GetTopTweets.schema. cbn [Zod.is_object].
    assert (Hh : Zod.member "author_handle" Zod.string (VObj props)
                 = Zod.success s).
    { unfold Zod.member. cbn [get]. now rewrite Hlookup. }
    rewrite Hh.
    destruct (Zod.member "interval" _ _); [|discriminate].
    destruct (Zod.member "sort_by" _ _); [|discriminate].
    destruct (Zod.member "limit" _ _); [|discriminate].
    eexists; split; reflexivity.
Qed.

(** Arguments without a handle are rejected by both capabilities; an
    empty handle is accepted. *)
Lemma author_handle_required_string_witness :
  (exists issues,
      getAuthorDetails raw_no_handle kaito_net = (ValidationError issues, []))
  /\ (exists issues,
      getTopTweets raw_no_handle empty_tweets_net
      = (ValidationError issues, []))
  /\ GetAuthorDetails.schema raw_empty_handle
     = Zod.success (GetAuthorDetails.mkArgs "")
  /\ (exists args,
      GetTopTweets.schema raw_empty_handle = Zod.success args
      /\ GetTopTweets.author_handle args = "").
Proof.
  destruct author_handle_required_string as (Hdetails & Htweets & Hok & Hok').
  split; [|split; [|split]].
  - apply Hdetails. discriminate.
  - apply Htweets. discriminate.
  - apply Hok. reflexivity.
  - apply Hok'; reflexivity.
Defined.

(** C4, refuted as stated: with the empty string as handle, validation
    succeeds for both capabilities and [getAuthorDetails] sends its
    request. *)
Lemma empty_handle_accepted :
  GetAuthorDetails.schema raw_empty_handle
  = Zod.success (GetAuthorDetails.mkArgs "")
  /\ GetTopTweets.schema raw_empty_handle
     = Zod.success (GetTopTweets.mkArgs "" "7day" "view_count_desc"
                      (Num.of_Z 5))
  /\ requests (snd (getAuthorDetails raw_empty_handle no_result_net))
     = [HttpGet "https://api.cred.buzz/user/author-handle-details?author_handle="].
Proof. repeat split; reflexivity. Qed.

(* ================================================================== *)
(** * The events of a run *)
(* ================================================================== *)




(** X2: when axios rejects, the returned text depends only on the status
    and the status text of the response, if there is one: the message of
    the error is written to [console.error] and never returned. *)
Theorem axios_message_is_never_returned :
  forall message message' response,
    (forall args,
        fst (GetAuthorDetails.run args
               (fun _ => Throw (AxiosError message response)))
        = fst (GetAuthorDetails.run args
                 (fun _ => Throw (AxiosError message' response))))
    /\ (forall args,
        fst (GetTopTweets.run args
               (fun _ => Throw (AxiosError message response)))
        = fst (GetTopTweets.run args
                 (fun _ => Throw (AxiosError message' response)))).
Proof.
  intros message message' response. split; intros args.
  - rewrite (run_details_rejected args _ (AxiosError message response)),
      (run_details_rejected args _ (AxiosError message' response))
      by reflexivity.
    unfold GetAuthorDetails.translate, bind, console_error.
    cbn [isAxiosError error_response].
    destruct (strict_eq_num _ 404); [reflexivity|].
    destruct (strict_eq_num _ 429); reflexivity.
  - rewrite (run_tweets_rejected args _ (AxiosError message response)),
      (run_tweets_rejected args _ (AxiosError message' response))
      by reflexivity.
    unfold GetTopTweets.translate, bind, console_error.
    cbn [isAxiosError error_response].
    destruct (strict_eq_num _ 404); [reflexivity|].
    destruct (strict_eq_num _ 429); reflexivity.
Qed.

(* ================================================================== *)
(** * The rendering of the top tweets *)
(* ================================================================== *)

Lemma map_index_length {A B} (f : A -> nat -> B) (l : list A) :
  forall start,
    List.length (GetTopTweets.map_index f start l) = List.length l.
Proof.
  induction l as [|x l IH]; intros start; cbn; [reflexivity | now rewrite IH].
Qed.

Lemma map_index_nth {A B} (f : A -> nat -> B) (l : list A) :
  forall start i x,
    nth_error l i = Some x ->
    nth_error (GetTopTweets.map_index f start l) i = Some (f x (start + i)%nat).
Proof.
  induction l as [|y l IH]; intros start i x Hnth.
  - destruct i; discriminate.
  - destruct i as [|i]; cbn in *.
    + injection Hnth as ->. now rewrite Nat.add_0_r.
    + rewrite (IH (S start) i x Hnth). f_equal. f_equal. lia.
Qed.

(** X3: the summary of [getTopTweets] counts the tweets it renders:
    [totalTweets] is the length of the rendered list, which has one entry
    per upstream tweet, in upstream order; the entry at index [i] carries
    the position [i + 1] and the id, content and date of the tweet at
    index [i].  The handle, interval and sort key are the caller's. *)
Theorem summary_lists_tweets_in_order :
  forall args tweets,
    exists rendered,
      get (GetTopTweets.summary args tweets) "tweets" = VArr rendered
      /\ List.length rendered = List.length tweets
      /\ get (GetTopTweets.summary args tweets) "totalTweets"
         = VNum (Num.of_nat (List.length rendered))
      /\ get (GetTopTweets.summary args tweets) "author"
         = VStr (GetTopTweets.author_handle args)
      /\ get (GetTopTweets.summary args tweets) "interval"
         = VStr (GetTopTweets.interval args)
      /\ get (GetTopTweets.summary args tweets) "sortedBy"
         = VStr (GetTopTweets.sort_by args)
      /\ (forall i tweet,
            nth_error tweets i = Some tweet ->
            exists entry,
              nth_error rendered i = Some entry
              /\ get entry "position" = VNum (Num.of_nat (i + 1))
              /\ get entry "tweetId" = VStr (Tweet.tweet_id tweet)
              /\ get entry "content" = VStr (Tweet.content tweet)
              /\ get entry "createdAt" = VStr (Tweet.created_at tweet)).
Proof.
  intros args tweets.
  exists (GetTopTweets.map_index GetTopTweets.formatTweet 0 tweets).
  split; [reflexivity|]. split; [apply map_index_length|].
  split; [cbn; now rewrite map_index_length|].
  do 3 (split; [reflexivity|]).
  intros i tweet Hnth.
  exists (GetTopTweets.formatTweet tweet i). split.
  - now rewrite (map_index_nth _ _ 0%nat i tweet Hnth).
  - repeat split.
Qed.

Lemma summary_lists_tweets_in_order_witness :
  exists rendered entry,
    get (GetTopTweets.summary alice_args [quiet_tweet; busy_tweet]) "tweets"
    = VArr rendered
    /\ nth_error [quiet_tweet; busy_tweet] 1 = Some busy_tweet
    /\ nth_error rendered 1 = Some entry
    /\ get entry "position" = VNum (Num.of_nat 2)
    /\ get entry "tweetId" = VStr "2".
Proof.
  destruct (summary_lists_tweets_in_order alice_args [quiet_tweet; busy_tweet])
    as (rendered & Hget & _ & _ & _ & _ & _ & Hnth).
  destruct (Hnth 1%nat busy_tweet eq_refl)
    as (entry & Hentry & Hpos & Hid & _).
  exists rendered, entry.
  split; [exact Hget|]. split; [reflexivity|]. split; [exact Hentry|].
  split; [exact Hpos | exact Hid].
Defined.

Lemma in_metric_fields key field :
  In (key, field) metric_fields ->
  forall tweet index,
    get (get (GetTopTweets.formatTweet tweet index) "metrics") key
    = or_else (opt_toLocaleString (field tweet)) NA.
Proof.
  unfold metric_fields. cbn [In].
  intros [H|[H|[H|[H|[H|[H|[]]]]]]] tweet index; injection H as <- <-;
    reflexivity.
Qed.

(** X4: each of the six counters of a tweet is rendered under [metrics]
    as the text of [toLocaleString] when it is present, a zero being
    rendered as "0", and as "N/A" only when it is absent: for tweets a
    zero is never mistaken for an unknown value. *)
Theorem tweet_metrics_keep_zero :
  forall tweet index key field,
    In (key, field) metric_fields ->
    let rendered :=
      get (get (GetTopTweets.formatTweet tweet index) "metrics") key in
    (forall n, field tweet = Some n ->
       rendered = VStr (Num.toLocaleString n) /\ rendered <> VStr "N/A"
       /\ (Num.is_zero n = true -> rendered = VStr "0"))
    /\ (field tweet = None -> rendered = VStr "N/A").
Proof.
  intros tweet index key field Hin rendered. subst rendered.
  rewrite (in_metric_fields _ _ Hin). split.
  - intros n ->. rewrite or_else_toLocaleString. repeat split.
    + intros [= H]. now apply (toLocaleString_not_sentinel n).
    + intros Hzero. now rewrite (toLocaleString_zero n Hzero).
  - intros ->. reflexivity.
Qed.

Lemma tweet_metrics_keep_zero_witness :
  Tweet.like_count busy_tweet = Some (mkNumber 0 0)
  /\ get (get (GetTopTweets.formatTweet busy_tweet 1) "metrics") "likes"
     = VStr "0"
  /\ Tweet.reply_count busy_tweet = None
  /\ get (get (GetTopTweets.formatTweet busy_tweet 1) "metrics") "replies"
     = VStr "N/A".
Proof.
  destruct (tweet_metrics_keep_zero busy_tweet 1 "likes" Tweet.like_count)
    as [Hpresent _]; [right; left; reflexivity|].
  destruct (tweet_metrics_keep_zero busy_tweet 1 "replies" Tweet.reply_count)
    as [_ Habsent]; [right; right; left; reflexivity|].
  split; [reflexivity|].
  split; [exact (proj2 (proj2 (Hpresent _ eq_refl)) eq_refl)|].
  split; [reflexivity | exact (Habsent eq_refl)].
Defined.

(* ================================================================== *)
(** * Telling a rendering from a sentence *)
(* ================================================================== *)





(* ================================================================== *)
(** * What the schemas accept *)
(* ================================================================== *)

Lemma member_success {A} key (schema : Zod.ZodType A) raw a :
  Zod.member key schema raw = Zod.success a ->
  schema (get raw key) = Zod.success a.
Proof.
  unfold Zod.member. destruct (schema (get raw key)); [trivial | discriminate].
Qed.

Lemma member_accepts {A} key (schema : Zod.ZodType A) raw a :
  schema (get raw key) = Zod.success a ->
  Zod.member key schema raw = Zod.success a.
Proof. unfold Zod.member. now intros ->. Qed.

Lemma string_success v s : Zod.string v = Zod.success s -> v = VStr s.
Proof. destruct v; cbn; try discriminate. now intros [= ->]. Qed.

Lemma enum_success values v s :
  Zod.enum values v = Zod.success s -> v = VStr s /\ In s values.
Proof.
  destruct v as [| | | |s'| |]; cbn; try discriminate.
  destruct (existsb (String.eqb s') values) eqn:Hin; [|discriminate].
  intros [= <-]. split; [reflexivity|].
  apply existsb_exists in Hin as (x & Hx & ->%String.eqb_eq). exact Hx.
Qed.

Lemma enum_accepts values s :
  In s values -> Zod.enum values (VStr s) = Zod.success s.
Proof.
  intros Hin. cbn.
  replace (existsb (String.eqb s) values) with true; [reflexivity|].
  symmetry. apply existsb_exists. exists s. split; [exact Hin|].
  apply String.eqb_refl.
Qed.

Lemma default_or_default {A} (schema : Zod.ZodType A) d v :
  Zod.default schema d v = schema (or_default v d).
Proof. destruct v; reflexivity. Qed.

Lemma limit_success v n :
  GetTopTweets.limit_schema v = Zod.success n ->
  or_default v (VNum (Num.of_Z 5)) = VNum n
  /\ Num.leb (Num.of_Z 1) n = true /\ Num.leb n (Num.of_Z 50) = true.
Proof.
  unfold GetTopTweets.limit_schema. rewrite default_or_default.
  destruct (or_default v (VNum (Num.of_Z 5))) as [| | |m| | |];
    try (cbn; discriminate).
  change (Zod.number _ (VNum m)) with (GetTopTweets.limit_schema (VNum m)).
  rewrite limit_schema_number.
  destruct (Num.leb (Num.of_Z 1) m) eqn:Hlo,
    (Num.leb m (Num.of_Z 50)) eqn:Hhi; try discriminate.
  intros [= <-]. repeat split; assumption.
Qed.

Lemma limit_accepts v n :
  or_default v (VNum (Num.of_Z 5)) = VNum n ->
  Num.leb (Num.of_Z 1) n = true -> Num.leb n (Num.of_Z 50) = true ->
  GetTopTweets.limit_schema v = Zod.success n.
Proof.
  intros Hv Hlo Hhi. unfold GetTopTweets.limit_schema.
  rewrite default_or_default, Hv.
  change (Zod.number _ (VNum n)) with (GetTopTweets.limit_schema (VNum n)).
  now rewrite limit_schema_number, Hlo, Hhi.
Qed.

Lemma top_tweets_members raw args :
  GetTopTweets.schema raw = Zod.success args ->
  Zod.string (get raw "author_handle")
  = Zod.success (GetTopTweets.author_handle args)
  /\ GetTopTweets.interval_schema (get raw "interval")
     = Zod.success (GetTopTweets.interval args)
  /\ GetTopTweets.sort_by_schema (get raw "sort_by")
     = Zod.success (GetTopTweets.sort_by args)
  /\ GetTopTweets.limit_schema (get raw "limit")
     = Zod.success (GetTopTweets.limit args).
Proof.
  unfold GetTopTweets.schema.
  destruct (Zod.is_object raw); [|discriminate].
  destruct (Zod.member "author_handle" _ _) as [h|] eqn:Hh;
    [|destruct (Zod.member "interval" _ _), (Zod.member "sort_by" _ _),
        (Zod.member "limit" _ _); discriminate].
  destruct (Zod.member "interval" _ _) as [i|] eqn:Hi;
    [|destruct (Zod.member "sort_by" _ _), (Zod.member "limit" _ _);
      discriminate].
  destruct (Zod.member "sort_by" _ _) as [s|] eqn:Hs;
    [|destruct (Zod.member "limit" _ _); discriminate].
  destruct (Zod.member "limit" _ _) as [l|] eqn:Hl; [|discriminate].
  intros [= <-]. cbn [GetTopTweets.author_handle GetTopTweets.interval
                        GetTopTweets.sort_by GetTopTweets.limit].
  apply member_success in Hh, Hi, Hs, Hl. auto.
Qed.

Lemma choice_success values d v s :
  Zod.default (Zod.enum values) d v = Zod.success s ->
  or_default v d = VStr s /\ In s values.
Proof. rewrite default_or_default. apply enum_success. Qed.

(** X6: the arguments that [getTopTweets] runs with always meet the
    schema: the handle is the caller's string; the interval, the sort key
    and the limit are the caller's values, or "7day", "view_count_desc" and
    5 where the caller gave none; the interval is one of the three
    intervals, the sort key one of the five keys, and the limit lies
    between 1 and 50. *)
Theorem validated_arguments_meet_schema :
  forall raw args,
    GetTopTweets.schema raw = Zod.success args ->
    get raw "author_handle" = VStr (GetTopTweets.author_handle args)
    /\ or_default (get raw "interval") (VStr "7day")
       = VStr (GetTopTweets.interval args)
    /\ In (GetTopTweets.interval args) GetTopTweets.intervals
    /\ or_default (get raw "sort_by") (VStr "view_count_desc")
       = VStr (GetTopTweets.sort_by args)
    /\ In (GetTopTweets.sort_by args) GetTopTweets.sort_keys
    /\ or_default (get raw "limit") (VNum (Num.of_Z 5))
       = VNum (GetTopTweets.limit args)
    /\ Num.leb (Num.of_Z 1) (GetTopTweets.limit args) = true
    /\ Num.leb (GetTopTweets.limit args) (Num.of_Z 50) = true.
Proof.
  intros raw args Hvalid.
  destruct (top_tweets_members raw args Hvalid) as (Hh & Hi & Hs & Hl).
  apply string_success in Hh.
  apply choice_success in Hi as [Hi Hi'], Hs as [Hs Hs'].
  apply limit_success in Hl as (Hl & Hlo & Hhi).
  repeat split; assumption.
Qed.

Lemma validated_arguments_meet_schema_witness :
  GetTopTweets.schema raw_fractional_limit
  = Zod.success (GetTopTweets.mkArgs "kaitoai" "7day" "view_count_desc"
                   two_and_a_half)
  /\ or_default (get raw_fractional_limit "interval") (VStr "7day")
     = VStr "7day"
  /\ In "7day" GetTopTweets.intervals
  /\ Num.leb two_and_a_half (Num.of_Z 50) = true.
Proof.
  destruct (validated_arguments_meet_schema raw_fractional_limit _ eq_refl)
    as (_ & Hi & Hin & _ & _ & _ & _ & Hhi).
  split; [reflexivity|]. split; [exact Hi|]. split; [exact Hin | exact Hhi].
Defined.

(** X7: an interval that is not one of "1day", "7day", "30day", or a
    sort key that is not one of the five declared keys, makes the
    invocation a validation failure, and no request is sent. *)
Theorem undeclared_choice_is_rejected :
  forall raw net choice,
    (get raw "interval" = VStr choice /\ ~ In choice GetTopTweets.intervals)
    \/ (get raw "sort_by" = VStr choice
        /\ ~ In choice GetTopTweets.sort_keys) ->
    exists issues, getTopTweets raw net = (ValidationError issues, []).
Proof.
  intros raw net choice Hbad.
  destruct (GetTopTweets.schema raw) as [args|issues] eqn:Hschema.
  - exfalso.
    destruct (top_tweets_members raw args Hschema) as (_ & Hi & Hs & _).
    apply choice_success in Hi as [Hi Hi'], Hs as [Hs Hs'].
    destruct Hbad as [[Hraw Hnot] | [Hraw Hnot]].
    + rewrite Hraw in Hi. injection Hi as ->. contradiction.
    + rewrite Hraw in Hs. injection Hs as ->. contradiction.
  - exists issues. now apply invoke_failure.
Qed.

Lemma undeclared_choice_is_rejected_witness :
  get raw_all_wrong "sort_by" = VStr "quote_count_desc"
  /\ ~ In "quote_count_desc" GetTopTweets.sort_keys
  /\ (exists issues,
        getTopTweets raw_all_wrong two_tweets_net = (ValidationError issues, [])).
Proof.
  assert (Hnot : ~ In "quote_count_desc" GetTopTweets.sort_keys)
    by (cbn; intuition discriminate).
  split; [reflexivity|]. split; [exact Hnot|].
  apply (undeclared_choice_is_rejected raw_all_wrong two_tweets_net
           "quote_count_desc").
  right. split; [reflexivity | exact Hnot].
Defined.

(** X8: conversely [getTopTweets] accepts every object whose handle is a
    string and whose interval, sort key and limit are each either absent
    or valid, and it runs with exactly those values and the defaults. *)
Theorem valid_arguments_are_accepted :
  forall raw h i s l,
    Zod.is_object raw = true ->
    get raw "author_handle" = VStr h ->
    or_default (get raw "interval") (VStr "7day") = VStr i ->
    In i GetTopTweets.intervals ->
    or_default (get raw "sort_by") (VStr "view_count_desc") = VStr s ->
    In s GetTopTweets.sort_keys ->
    or_default (get raw "limit") (VNum (Num.of_Z 5)) = VNum l ->
    Num.leb (Num.of_Z 1) l = true -> Num.leb l (Num.of_Z 50) = true ->
    GetTopTweets.schema raw = Zod.success (GetTopTweets.mkArgs h i s l).
Proof.
  intros raw h i s l Hobj Hh Hi Hi' Hs Hs' Hl Hlo Hhi.
  unfold GetTopTweets.schema. rewrite Hobj.
  rewrite (member_accepts "author_handle" Zod.string raw h)
    by (now rewrite Hh).
  rewrite (member_accepts "interval" GetTopTweets.interval_schema raw i)
    by (unfold GetTopTweets.interval_schema;
        now rewrite default_or_default, Hi, enum_accepts).
  rewrite (member_accepts "sort_by" GetTopTweets.sort_by_schema raw s)
    by (unfold GetTopTweets.sort_by_schema;
        now rewrite default_or_default, Hs, enum_accepts).
  rewrite (member_accepts "limit" GetTopTweets.limit_schema raw l)
    by (now apply limit_accepts).
  reflexivity.
Qed.

Lemma valid_arguments_are_accepted_witness :
  GetTopTweets.schema raw_handle_only
  = Zod.success (GetTopTweets.mkArgs "kaitoai" "7day" "view_count_desc"
                   (Num.of_Z 5)).
Proof.
  apply valid_arguments_are_accepted; try reflexivity.
  - right. left. reflexivity.
  - left. reflexivity.
Defined.

Lemma lookup_insert_other key k v before after :
  k <> key ->
  lookup key (before ++ (k, v) :: after)%list = lookup key (before ++ after)%list.
Proof.
  intros Hk. induction before as [|[k' v'] before IH]; cbn.
  - destruct (String.eqb_spec k key); [contradiction | reflexivity].
  - now rewrite IH.
Qed.

(** X9: an argument that the schema does not declare is ignored: adding
    it anywhere among the raw arguments changes nothing in what either
    capability does. *)
Theorem undeclared_arguments_are_ignored :
  (forall before after k v net,
      k <> "author_handle" ->
      getAuthorDetails (VObj (before ++ (k, v) :: after)) net
      = getAuthorDetails (VObj (before ++ after)) net)
  /\ (forall before after k v net,
      ~ In k top_tweets_keys ->
      getTopTweets (VObj (before ++ (k, v) :: after)) net
      = getTopTweets (VObj (before ++ after)) net).
Proof.
  split.
  - intros before after k v net Hk.
    unfold getAuthorDetails, invoke, GetAuthorDetails.schema, Zod.member.
    cbn [Zod.is_object get]. now rewrite lookup_insert_other.
  - intros before after k v net Hk.
    unfold getTopTweets, invoke, GetTopTweets.schema, Zod.member.
    cbn [Zod.is_object get].
    rewrite !(lookup_insert_other _ k v)
      by (intros ->; apply Hk; cbn; tauto).
    reflexivity.
Qed.

Lemma undeclared_arguments_are_ignored_witness :
  getAuthorDetails
    (VObj [("verbose", VBool true); ("author_handle", VStr "kaitoai")])
    kaito_net
  = getAuthorDetails (VObj [("author_handle", VStr "kaitoai")]) kaito_net.
Proof.
  apply (proj1 undeclared_arguments_are_ignored [] _ "verbose" (VBool true)).
  discriminate.
Defined.

Lemma string_reports_well : reports_well Zod.string.
Proof.
  intros v. destruct v; cbn; split;
    solve [repeat constructor | discriminate].
Qed.

Lemma enum_reports_well values : reports_well (Zod.enum values).
Proof.
  intros v. destruct v as [| | | |s| |]; cbn;
    try (split; solve [repeat constructor | discriminate]).
  destruct (existsb (String.eqb s) values); cbn; split;
    solve [repeat constructor | discriminate].
Qed.

Lemma default_reports_well {A} (schema : Zod.ZodType A) d :
  reports_well schema -> reports_well (Zod.default schema d).
Proof. intros H v. rewrite default_or_default. apply H. Qed.

Lemma limit_reports_well : reports_well GetTopTweets.limit_schema.
Proof.
  intros v. unfold GetTopTweets.limit_schema. rewrite default_or_default.
  destruct (or_default v (VNum (Num.of_Z 5))) as [| | |m| | |];
    try (cbn; split; solve [repeat constructor | discriminate]).
  change (Zod.number _ (VNum m)) with (GetTopTweets.limit_schema (VNum m)).
  rewrite limit_schema_number.
  destruct (Num.leb (Num.of_Z 1) m), (Num.leb m (Num.of_Z 50)); cbn; split;
    solve [repeat constructor | discriminate].
Qed.

Lemma member_issue_path {A} key (schema : Zod.ZodType A) raw issue :
  reports_well schema ->
  In issue (Zod.issues_of (Zod.member key schema raw)) ->
  Zod.path issue = [key]
  /\ Zod.is_success (schema (get raw key)) = false.
Proof.
  intros Hwell. destruct (Hwell (get raw key)) as [Hpaths _].
  unfold Zod.member.
  destruct (schema (get raw key)) as [a|issues]; cbn in *; [contradiction|].
  intros (inner & <- & Hin)%in_map_iff. cbn.
  rewrite Forall_forall in Hpaths. now rewrite (Hpaths inner Hin).
Qed.

Lemma member_issue_exists {A} key (schema : Zod.ZodType A) raw :
  reports_well schema ->
  Zod.is_success (schema (get raw key)) = false ->
  exists issue,
    In issue (Zod.issues_of (Zod.member key schema raw))
    /\ Zod.path issue = [key].
Proof.
  intros Hwell Hfail. destruct (Hwell (get raw key)) as [Hpaths Hsome].
  specialize (Hsome Hfail). unfold Zod.member.
  destruct (schema (get raw key)) as [a|[|inner issues]]; cbn in *;
    try contradiction; try discriminate.
  eexists. split; [left; reflexivity|]. cbn.
  inversion Hpaths as [|? ? Hpath _]. now rewrite Hpath.
Qed.

Lemma top_tweets_issues raw :
  Zod.is_object raw = true ->
  Zod.issues_of (GetTopTweets.schema raw)
  = (Zod.issues_of (Zod.member "author_handle" Zod.string raw)
     ++ Zod.issues_of (Zod.member "interval" GetTopTweets.interval_schema raw)
     ++ Zod.issues_of (Zod.member "sort_by" GetTopTweets.sort_by_schema raw)
     ++ Zod.issues_of (Zod.member "limit" GetTopTweets.limit_schema raw))%list.
Proof.
  intros Hobj. unfold GetTopTweets.schema. rewrite Hobj.
  destruct (Zod.member "author_handle" _ _), (Zod.member "interval" _ _),
    (Zod.member "sort_by" _ _), (Zod.member "limit" _ _); reflexivity.
Qed.

(** X10: a validation failure of [getTopTweets] names all the offending
    fields and only them: every issue carries the name of one of the four
    fields, whose schema rejected the caller's value, and every field
    whose schema rejects the caller's value has an issue under its name;
    the first bad field does not hide the next. *)
Theorem failures_name_the_offending_fields :
  forall raw,
    Zod.is_object raw = true ->
    (forall issue,
        In issue (Zod.issues_of (GetTopTweets.schema raw)) ->
        exists key,
          In key top_tweets_keys /\ Zod.path issue = [key]
          /\ field_accepts raw key = false)
    /\ (forall key,
        In key top_tweets_keys -> field_accepts raw key = false ->
        exists issue,
          In issue (Zod.issues_of (GetTopTweets.schema raw))
          /\ Zod.path issue = [key]).
Proof.
  intros raw Hobj. rewrite (top_tweets_issues raw Hobj).
  pose proof string_reports_well as Hh.
  pose proof (default_reports_well _ (VStr "7day")
                (enum_reports_well GetTopTweets.intervals)) as Hi.
  pose proof (default_reports_well _ (VStr "view_count_desc")
                (enum_reports_well GetTopTweets.sort_keys)) as Hs.
  pose proof limit_reports_well as Hl.
  split.
  - intros issue Hin.
    repeat (apply in_app_or in Hin as [Hin | Hin]).
    + apply (member_issue_path _ _ _ _ Hh) in Hin as [Hpath Hfail].
      exists "author_handle". cbn; tauto.
    + apply (member_issue_path _ _ _ _ Hi) in Hin as [Hpath Hfail].
      exists "interval". cbn; tauto.
    + apply (member_issue_path _ _ _ _ Hs) in Hin as [Hpath Hfail].
      exists "sort_by". cbn; tauto.
    + apply (member_issue_path _ _ _ _ Hl) in Hin as [Hpath Hfail].
      exists "limit". cbn; tauto.
  - intros key Hkey Hfail. cbn in Hkey.
    destruct Hkey as [<-|[<-|[<-|[<-|[]]]]]; cbn in Hfail.
    + destruct (member_issue_exists "author_handle" _ raw Hh Hfail)
        as (issue & Hin & Hpath).
      exists issue. split; [|exact Hpath]. apply in_or_app. now left.
    + destruct (member_issue_exists "interval" _ raw Hi Hfail)
        as (issue & Hin & Hpath).
      exists issue. split; [|exact Hpath].
      apply in_or_app. right. apply in_or_app. now left.
    + destruct (member_issue_exists "sort_by" _ raw Hs Hfail)
        as (issue & Hin & Hpath).
      exists issue. split; [|exact Hpath].
      do 2 (apply in_or_app; right). apply in_or_app. now left.
    + destruct (member_issue_exists "limit" _ raw Hl Hfail)
        as (issue & Hin & Hpath).
      exists issue. split; [|exact Hpath].
      do 3 (apply in_or_app; right). exact Hin.
Qed.

Lemma failures_name_the_offending_fields_witness :
  Zod.issues_of (GetTopTweets.schema raw_all_wrong)
  = [Zod.mkIssue Zod.invalid_type ["author_handle"];
     Zod.mkIssue Zod.invalid_enum_value ["interval"];
     Zod.mkIssue Zod.invalid_enum_value ["sort_by"];
     Zod.mkIssue Zod.too_big ["limit"]]
  /\ (exists issue,
        In issue (Zod.issues_of (GetTopTweets.schema raw_all_wrong))
        /\ Zod.path issue = ["sort_by"]).
Proof.
  split; [reflexivity|].
  apply (proj2 (failures_name_the_offending_fields raw_all_wrong eq_refl)).
  - right. right. left. reflexivity.
  - reflexivity.
Defined.

(* ================================================================== *)
(** * The request URLs *)
(* ================================================================== *)

Lemma count_char_app c (a b : string) :
  count_char c (a ++ b) = (count_char c a + count_char c b)%nat.
Proof. induction a as [|x a IH]; cbn; [reflexivity | rewrite IH; lia]. Qed.

Lemma count_zero_of_all p c (s : string) :
  Grammar.all p s -> p c = false -> count_char c s = 0%nat.
Proof.
  unfold Grammar.all. intros Hall Hc.
  induction s as [|x s IH]; [reflexivity|].
  cbn in *. apply andb_prop in Hall as [Hx Hs]. rewrite (IH Hs).
  destruct (Ascii.eqb_spec x c) as [->|]; [congruence | reflexivity].
Qed.

Lemma all_impl (p q : ascii -> bool) (s : string) :
  (forall c, p c = true -> q c = true) -> Grammar.all p s -> Grammar.all q s.
Proof.
  unfold Grammar.all. intros Hpq.
  induction s as [|x s IH]; [trivial|]. cbn.
  intros [Hx Hs]%andb_prop. now rewrite (Hpq x Hx), IH.
Qed.

Lemma encodeURIComponent_chars (s : string) :
  Grammar.all is_uri_component_char (URL.encodeURIComponent s).
Proof.
  induction s as [|c s IH]; [reflexivity|].
  cbn [URL.encodeURIComponent]. apply all_app; [|exact IH].
  destruct c as [[] [] [] [] [] [] [] []]; reflexivity.
Qed.

Lemma form_urlencode_chars (s : string) :
  Grammar.all is_form_char (URL.form_urlencode s).
Proof.
  induction s as [|c s IH]; [reflexivity|].
  cbn [URL.form_urlencode]. apply all_app; [|exact IH].
  destruct c as [[] [] [] [] [] [] [] []]; reflexivity.
Qed.

Lemma tweets_url_parts args :
  GetTopTweets.url args
  = tweets_endpoint
      ++ URL.form_urlencode (GetTopTweets.author_handle args)
      ++ "&interval=" ++ URL.form_urlencode (GetTopTweets.interval args)
      ++ "&sort_by=" ++ URL.form_urlencode (GetTopTweets.sort_by args)
      ++ "&limit="
      ++ URL.form_urlencode (Num.toString (GetTopTweets.limit args)).
Proof.
  unfold GetTopTweets.url, URL.URLSearchParams_toString, GetTopTweets.params.
  cbn [map fst snd String.concat].
  change (URL.form_urlencode "author_handle") with "author_handle".
  change (URL.form_urlencode "interval") with "interval".
  change (URL.form_urlencode "sort_by") with "sort_by".
  change (URL.form_urlencode "limit") with "limit".
  now rewrite !append_assoc.
Qed.

(** X11: whatever the handle and the other arguments contain, the URL of
    a request keeps its shape: one [?], no [#] and no space; one [=] and
    no [&] for [getAuthorDetails]; four [=] and three [&] for
    [getTopTweets].  An argument cannot add a parameter or a fragment. *)
Theorem arguments_cannot_reshape_the_url :
  (forall args,
      let u := GetAuthorDetails.url args in
      count_char "?" u = 1%nat /\ count_char "=" u = 1%nat
      /\ count_char "&" u = 0%nat /\ count_char "#" u = 0%nat
      /\ count_char " " u = 0%nat)
  /\ (forall args,
      let u := GetTopTweets.url args in
      count_char "?" u = 1%nat /\ count_char "=" u = 4%nat
      /\ count_char "&" u = 3%nat /\ count_char "#" u = 0%nat
      /\ count_char " " u = 0%nat).
Proof.
  split; intros args u; subst u.
  - unfold GetAuthorDetails.url.
    pose proof (encodeURIComponent_chars (GetAuthorDetails.author_handle args))
      as Hall.
    rewrite !count_char_app.
    rewrite !(count_zero_of_all _ _ _ Hall) by reflexivity.
    repeat split.
  - rewrite tweets_url_parts.
    pose proof (form_urlencode_chars (GetTopTweets.author_handle args)) as Hh.
    pose proof (form_urlencode_chars (GetTopTweets.interval args)) as Hi.
    pose proof (form_urlencode_chars (GetTopTweets.sort_by args)) as Hs.
    pose proof (form_urlencode_chars
                  (Num.toString (GetTopTweets.limit args))) as Hl.
    rewrite !count_char_app.
    rewrite !(count_zero_of_all _ _ _ Hh), !(count_zero_of_all _ _ _ Hi),
      !(count_zero_of_all _ _ _ Hs), !(count_zero_of_all _ _ _ Hl)
      by reflexivity.
    repeat split.
Qed.









Lemma encodeURIComponent_kept (s : string) :
  Grammar.all uri_keeps s -> URL.encodeURIComponent s = s.
Proof.
  unfold Grammar.all. induction s as [|c s IH]; [reflexivity|].
  cbn [list_ascii_of_string forallb URL.encodeURIComponent].
  intros [Hc Hs]%andb_prop. unfold uri_keeps in Hc.
  now rewrite Hc, (IH Hs).
Qed.

Lemma form_urlencode_kept (s : string) :
  Grammar.all form_keeps s -> URL.form_urlencode s = s.
Proof.
  unfold Grammar.all. induction s as [|c s IH]; [reflexivity|].
  cbn [list_ascii_of_string forallb URL.form_urlencode].
  intros [Hc Hs]%andb_prop. unfold form_keeps in Hc.
  now rewrite Hc, (IH Hs).
Qed.

Lemma handle_char_kept (c : ascii) :
  is_handle_char c = true -> uri_keeps c = true /\ form_keeps c = true.
Proof.
  unfold is_handle_char, uri_keeps, form_keeps.
  destruct (URL.is_alnum (N_of_ascii c)); [now split|]. cbn [orb].
  intros ->%Ascii.eqb_eq. now split.
Qed.

(** X13: a handle made of letters, digits and underscores is sent as it
    is, by both capabilities: the URL of [getAuthorDetails] is the
    endpoint followed by the handle, and the query of [getTopTweets]
    starts with the handle unchanged. *)
Theorem plain_handle_is_sent_verbatim :
  forall h,
    Grammar.all is_handle_char h ->
    GetAuthorDetails.url (GetAuthorDetails.mkArgs h) = details_endpoint ++ h
    /\ (forall i s l,
          GetTopTweets.url (GetTopTweets.mkArgs h i s l)
          = tweets_endpoint ++ h
              ++ "&interval=" ++ URL.form_urlencode i
              ++ "&sort_by=" ++ URL.form_urlencode s
              ++ "&limit=" ++ URL.form_urlencode (Num.toString l)).
Proof.
  intros h Hh. split.
  - unfold GetAuthorDetails.url. cbn [GetAuthorDetails.author_handle].
    rewrite encodeURIComponent_kept; [reflexivity|].
    apply (all_impl is_handle_char); [|exact Hh].
    intros c Hc. now apply handle_char_kept.
  - intros i s l. rewrite tweets_url_parts.
    cbn [GetTopTweets.author_handle GetTopTweets.interval
           GetTopTweets.sort_by GetTopTweets.limit].
    rewrite (form_urlencode_kept h); [reflexivity|].
    apply (all_impl is_handle_char); [|exact Hh].
    intros c Hc. now apply handle_char_kept.
Qed.

Lemma plain_handle_is_sent_verbatim_witness :
  Grammar.all is_handle_char "kaito_ai"
  /\ GetAuthorDetails.url (GetAuthorDetails.mkArgs "kaito_ai")
     = "https://api.cred.buzz/user/author-handle-details?author_handle=kaito_ai".
Proof.
  split; [reflexivity|].
  exact (proj1 (plain_handle_is_sent_verbatim "kaito_ai" eq_refl)).
Defined.

Lemma digits_all (n : N) : Grammar.all Grammar.is_digit (Num.digits n).
Proof.
  unfold Num.digits, NilZero.string_of_uint.
  pose proof (string_of_uint_digits (N.to_uint n)) as H.
  destruct (N.to_uint n); [reflexivity | exact H ..].
Qed.

Lemma toString_chars (x : number) :
  Grammar.all is_number_char (Num.toString x).
Proof.
  assert (Hdigit : forall s, Grammar.all Grammar.is_digit s ->
                             Grammar.all is_number_char s).
  { intros s. apply all_impl. intros c Hc. unfold is_number_char.
    now rewrite Hc. }
  unfold Num.toString. apply all_app.
  - unfold Num.sign_of. destruct (mant x <? 0); reflexivity.
  - unfold Num.with_fraction.
    pose proof (strip_trailing_zeros_all _
                  (frac_digits_all (scale x)
                     (Z.abs_N (mant x) mod 10 ^ N.of_nat (scale x)))) as Hfrac.
    destruct (Num.strip_trailing_zeros _) as [|c f].
    + apply Hdigit, digits_all.
    + apply all_app; [apply Hdigit, digits_all|].
      apply all_app; [reflexivity | now apply Hdigit].
Qed.

Lemma number_char_kept (c : ascii) :
  is_number_char c = true -> form_keeps c = true.
Proof.
  destruct c as [[] [] [] [] [] [] [] []]; intros H;
    solve [reflexivity | discriminate H].
Qed.

(** X14: for arguments that passed validation the query string is
    readable as it stands: after the encoded handle come the interval, the
    sort key and the decimal text of the limit, each written exactly as
    validated, without any escape. *)
Theorem validated_query_is_written_plainly :
  forall raw args,
    GetTopTweets.schema raw = Zod.success args ->
    GetTopTweets.url args
    = tweets_endpoint
        ++ URL.form_urlencode (GetTopTweets.author_handle args)
        ++ "&interval=" ++ GetTopTweets.interval args
        ++ "&sort_by=" ++ GetTopTweets.sort_by args
        ++ "&limit=" ++ Num.toString (GetTopTweets.limit args).
Proof.
  intros raw args Hvalid.
  destruct (top_tweets_members raw args Hvalid) as (_ & Hi & Hs & _).
  apply choice_success in Hi as [_ Hi], Hs as [_ Hs].
  rewrite tweets_url_parts.
  rewrite (form_urlencode_kept (Num.toString (GetTopTweets.limit args)))
    by (apply (all_impl is_number_char);
        [apply number_char_kept | apply toString_chars]).
  replace (URL.form_urlencode (GetTopTweets.interval args))
    with (GetTopTweets.interval args)
    by (cbn in Hi; destruct Hi as [<-|[<-|[<-|[]]]]; reflexivity).
  replace (URL.form_urlencode (GetTopTweets.sort_by args))
    with (GetTopTweets.sort_by args)
    by (cbn in Hs; destruct Hs as [<-|[<-|[<-|[<-|[<-|[]]]]]]; reflexivity).
  reflexivity.
Qed.

Lemma validated_query_is_written_plainly_witness :
  GetTopTweets.schema raw_fractional_limit
  = Zod.success (GetTopTweets.mkArgs "kaitoai" "7day" "view_count_desc"
                   two_and_a_half)
  /\ GetTopTweets.url (GetTopTweets.mkArgs "kaitoai" "7day" "view_count_desc"
                         two_and_a_half)
     = "https://api.cred.buzz/user/get-top-tweets?author_handle=kaitoai&interval=7day&sort_by=view_count_desc&limit=2.5".
Proof.
  split; [reflexivity|].
  exact (validated_query_is_written_plainly raw_fractional_limit _ eq_refl).
Defined.
